(** * webpack.common.config.ts: the client and server build profiles

    A shallow embedding of [webpack.common.config.ts]: the version
    sanitizer [absoluteVersion], the exported [serviceName], the
    [DefinePlugin] factory [getDefinePlugin], the two exported
    configuration objects [clientConfig] and [serverConfig], the loader
    rules, the CDN paths and the load of the module as a whole.

    JavaScript strings are sequences of UTF-16 code units; they are
    modelled as lists of code units, each a natural number ([N]).  The
    JavaScript built-ins the file calls ([String.prototype.replace] with a
    global character-class pattern, [RegExp.prototype.test],
    [JSON.stringify], [Object.keys], [Array.prototype.reduce], object
    spread and the [||] operator) are modelled next to their call sites. *)

From Stdlib Require Import NArith Ascii String List Bool Lia.
From stdpp Require Import base option list gmap.

Import ListNotations.
Local Open Scope N_scope.

(** ** JavaScript strings *)

Module JsString.

(** One UTF-16 code unit. *)
Definition code_unit : Type := N.

(** A string literal of the source, read as code units (the literals of
    this file are all ASCII). *)
Definition lit (s : string) : list code_unit :=
  List.map N_of_ascii (list_ascii_of_string s).

Definition is_digit (c : code_unit) : bool := (48 <=? c) && (c <=? 57).
Definition is_lower (c : code_unit) : bool := (97 <=? c) && (c <=? 122).

(** Surrogate halves, as [StringToCodePoints] tells them apart. *)
Definition is_leading_surrogate (c : code_unit) : bool :=
  (55296 <=? c) && (c <=? 56319).
Definition is_trailing_surrogate (c : code_unit) : bool :=
  (56320 <=? c) && (c <=? 57343).

End JsString.

Abbreviation js_string := (list JsString.code_unit).
Notation "'js:' s" := (JsString.lit s%string) (at level 9, s at level 0, only parsing).

(** ** Regular expressions

    The patterns of [absoluteVersion], of the vendor group, of the
    allow-list and of [exclude] use three constructs only: a literal
    character, a character class (possibly negated) and concatenation.
    None is anchored and none carries the [u] or [i] flag, so matching
    works on code units, case-sensitively.  The anchored patterns of the
    loader rules come with [Regex], further down. *)

Module RegExp.

(** Members of a character class. *)
Inductive class_item : Type :=
| Single (c : JsString.code_unit)          (* [.], [\-], [/], [\\] inside a class *)
| Range (lo hi : JsString.code_unit)       (* [a-z] *)
| Digit.                                   (* [\d] *)

Definition item_matches (i : class_item) (c : JsString.code_unit) : bool :=
  match i with
  | Single d => c =? d
  | Range lo hi => (lo <=? c) && (c <=? hi)
  | Digit => JsString.is_digit c
  end.

(** One pattern position, consuming exactly one code unit. *)
Inductive atom : Type :=
| Char (c : JsString.code_unit)
| Class (negated : bool) (items : list class_item).

Definition atom_matches (a : atom) (c : JsString.code_unit) : bool :=
  match a with
  | Char d => c =? d
  | Class negated items =>
      xorb negated (existsb (fun i => item_matches i c) items)
  end.

(** A pattern is a sequence of atoms. *)
Definition pattern : Type := list atom.

Definition chars (s : js_string) : pattern := List.map Char s.

(** The pattern matches a prefix of [s]. *)
Fixpoint matches_prefix (p : pattern) (s : js_string) : bool :=
  match p, s with
  | [], _ => true
  | _ :: _, [] => false
  | a :: p', c :: s' => atom_matches a c && matches_prefix p' s'
  end.

(** [RegExp.prototype.test] without the sticky flag: a match at some index. *)
Fixpoint test (p : pattern) (s : js_string) : bool :=
  matches_prefix p s ||
  match s with
  | [] => false
  | _ :: s' => test p s'
  end.

(** [s.replace(/a/g, replacement)] for a pattern [a] of a single atom:
    every match is one code unit long, so the scan visits each code unit
    once, emits the replacement where the atom matches and the code unit
    itself elsewhere. *)
Fixpoint replace_all (a : atom) (replacement : js_string) (s : js_string)
  : js_string :=
  match s with
  | [] => []
  | c :: s' =>
      (if atom_matches a c then replacement else [c])
        ++ replace_all a replacement s'
  end.

End RegExp.

(** ** The version sanitizer *)

(** The pattern [/[^\d.\-a-z]/g] of [absoluteVersion]. *)
Definition version_junk : RegExp.atom :=
  RegExp.Class true
    [RegExp.Digit; RegExp.Single 46; RegExp.Single 45; RegExp.Range 97 122].

(** [version.replace(/[^\d.\-a-z]/g, '')] *)
Definition absoluteVersion (version : js_string) : js_string :=
  RegExp.replace_all version_junk [] version.

(** The characters the specification lets through: a digit, a lowercase
    letter, a period or a hyphen. *)
Definition version_char (c : JsString.code_unit) : bool :=
  JsString.is_digit c || JsString.is_lower c || (c =? 46) || (c =? 45).

(** ** JavaScript values

    The values that can stand in an environment object: the imported
    [processEnv] is read through [(env as any)[key]], so its entries are
    not known to be strings.  Numbers and nested objects are left out. *)

Module Value.

Inductive t : Type :=
| Undefined
| Null
| Boolean (b : bool)
| Str (s : js_string).

(** [ToBoolean] *)
Definition to_boolean (v : t) : bool :=
  match v with
  | Undefined | Null => false
  | Boolean b => b
  | Str [] => false
  | Str (_ :: _) => true
  end.

(** [ToString], as a template literal applies it to a substitution. *)
Definition to_string (v : t) : js_string :=
  match v with
  | Undefined => js:"undefined"
  | Null => js:"null"
  | Boolean true => js:"true"
  | Boolean false => js:"false"
  | Str s => s
  end.

(** [a || b]: the left operand when it is truthy, the right one otherwise. *)
Definition or (a b : t) : t := if to_boolean a then a else b.

(** Property read [o[key]] on an object used as a dictionary: an own
    property gives its value and a missing one reads as [undefined] (the
    keys read below come from [Object.keys], so they are own properties). *)
Definition get (o : gmap js_string t) (key : js_string) : t :=
  default Undefined (o !! key).

End Value.

(** [process.env]: Node keeps every entry as a string. *)
Abbreviation process_env_t := (gmap js_string js_string).

(** Property read on [process.env]. *)
Definition process_env_get (penv : process_env_t) (key : js_string) : Value.t :=
  from_option Value.Str Value.Undefined (penv !! key).

(** ** JSON.stringify *)

Module JSON.

Definition quotation_mark : JsString.code_unit := 34.
Definition reverse_solidus : JsString.code_unit := 92.

(** One lowercase hexadecimal digit. *)
Definition hex_digit (n : N) : JsString.code_unit :=
  if n <? 10 then 48 + n else 87 + n.

(** [UnicodeEscape]: [\uXXXX] with four lowercase hexadecimal digits. *)
Definition unicode_escape (c : JsString.code_unit) : js_string :=
  [reverse_solidus; 117;
   hex_digit ((c / 4096) mod 16); hex_digit ((c / 256) mod 16);
   hex_digit ((c / 16) mod 16); hex_digit (c mod 16)].

(** The two-character escapes of [QuoteJSONString]. *)
Definition short_escape (c : JsString.code_unit) : option JsString.code_unit :=
  if c =? 8 then Some 98          (* backspace        \b *)
  else if c =? 9 then Some 116    (* tab              \t *)
  else if c =? 10 then Some 110   (* line feed        \n *)
  else if c =? 12 then Some 102   (* form feed        \f *)
  else if c =? 13 then Some 114   (* carriage return  \r *)
  else if c =? 34 then Some 34    (* quotation mark, escaped by a reverse solidus *)
  else if c =? 92 then Some 92    (* reverse solidus, doubled *)
  else None.

(** A code unit that is a code point by itself. *)
Definition quote_unit (c : JsString.code_unit) : js_string :=
  match short_escape c with
  | Some e => [reverse_solidus; e]
  | None =>
      if (c <? 32) || JsString.is_leading_surrogate c
         || JsString.is_trailing_surrogate c
      then unicode_escape c
      else [c]
  end.

(** The characters between the quotation marks: a surrogate pair is one
    code point and is copied, a lone surrogate is escaped. *)
Fixpoint quote_body (s : js_string) : js_string :=
  match s with
  | [] => []
  | c :: rest =>
      if JsString.is_leading_surrogate c then
        match rest with
        | d :: rest' =>
            if JsString.is_trailing_surrogate d
            then c :: d :: quote_body rest'
            else unicode_escape c ++ quote_body rest
        | [] => unicode_escape c
        end
      else quote_unit c ++ quote_body rest
  end.

(** [QuoteJSONString] *)
Definition quote (s : js_string) : js_string :=
  quotation_mark :: quote_body s ++ [quotation_mark].

(** [JSON.stringify(v)]: [undefined] has no JSON text and comes back as
    [undefined]. *)
Definition stringify (v : Value.t) : Value.t :=
  match v with
  | Value.Undefined => Value.Undefined
  | Value.Null => Value.Str js:"null"
  | Value.Boolean true => Value.Str js:"true"
  | Value.Boolean false => Value.Str js:"false"
  | Value.Str s => Value.Str (quote s)
  end.

End JSON.

(** ** Objects as dictionaries *)

(** [Object.keys(o)].  The order of enumeration is the order of the map's
    listing; the objects built from it below are maps, for which the order
    is immaterial. *)
Definition Object_keys {V} (o : gmap js_string V) : list js_string :=
  (map_to_list o).*1.

(** [keys.reduce(f, init)] *)
Definition Array_reduce {A B} (f : A -> B -> A) (init : A) (l : list B) : A :=
  fold_left f l init.

(** ** Plugins *)

(** The definitions object handed to [webpack.DefinePlugin]: the
    replacement for [process.env] is either a code fragment (a string) or
    an object of per-key replacements; [__isServer] is a boolean. *)
Module Define.

Inductive replacement : Type :=
| Code (fragment : js_string)
| Object (entries : gmap js_string Value.t).

Record t : Type := {
  process_env : replacement;     (* 'process.env' *)
  __isServer : bool;
}.

End Define.

Inductive plugin : Type :=
| ForkTsCheckerWebpackPlugin
| FavIconWebpackPlugin (logo prefix : js_string)
| StatsWriterPlugin (filename : js_string) (fields : list js_string)
| DefinePlugin (definitions : Define.t)
| LimitChunkCountPlugin (maxChunks : N).

Definition is_LimitChunkCountPlugin (p : plugin) : bool :=
  match p with
  | LimitChunkCountPlugin _ => true
  | _ => false
  end.

(** ** Configuration objects

    The records list the fields the file sets, under their own names; a
    field that only one of the two configurations sets is optional.  The
    [module.rules] loader rules need richer patterns and stand on their
    own further down, as [module_rules]. *)

Module Resolve.
Record t : Type := {
  modules : list js_string;
  extensions : list js_string;
  mainFields : list js_string;
}.
End Resolve.

Module CacheGroup.
Inductive chunk_kind : Type := initial | async | all.
Record t : Type := {
  chunks : chunk_kind;
  enforce : bool;
  name : js_string;
  priority : Z;
  test : RegExp.pattern;
}.
End CacheGroup.

Module Optimization.
Record split_chunks : Type := {
  cacheGroups : gmap js_string CacheGroup.t;
}.
Record t : Type := {
  splitChunks : split_chunks;
}.
End Optimization.

Module Output.
Record t : Type := {
  publicPath : js_string;
  path : js_string;
  filename : js_string;
  chunkFilename : option js_string;
  clean : option bool;
  libraryTarget : option js_string;
}.
End Output.

Module Externals.
(** [externalsPresets] *)
Record presets : Type := {
  node : bool;
}.
(** One entry of [externals]: the result of [nodeExternals(options)]. *)
Inductive item : Type :=
| nodeExternals (allowlist : RegExp.pattern).
End Externals.

Module Configuration.
Record t : Type := {
  name : js_string;
  target : js_string;
  resolve : Resolve.t;
  entry : list js_string;
  optimization : option Optimization.t;
  externalsPresets : option Externals.presets;
  externals : list Externals.item;
  output : Output.t;
  plugins : list plugin;
}.
End Configuration.

(** ** The module body *)

Section Module_body.

(** [process.env] at load time. *)
Variable process_env : process_env_t.
(** [processEnv], imported from [./env] under the name [env]. *)
Variable env : gmap js_string Value.t.
(** [__dirname], and [path.join] and [path.resolve] of Node's [path]. *)
Variable __dirname : js_string.
Variable path_join : list js_string -> js_string.
Variable path_resolve : list js_string -> js_string.

(** [process.env.SERVICE_NAME || 'not set'] *)
Definition serviceName : Value.t :=
  Value.or (process_env_get process_env js:"SERVICE_NAME")
           (Value.Str js:"not set").

Definition dist : js_string := path_join [__dirname; js:"dist"].

(** The template literal [`${env.BASE_URL}/assets/`]. *)
Definition publicPath : js_string :=
  Value.to_string (Value.get env js:"BASE_URL") ++ js:"/assets/".

Definition favIconPlugin : plugin :=
  FavIconWebpackPlugin (path_resolve [__dirname; js:"src/assets/favicon.png"])
                       js:"./".

Definition statsWriterPlugin : plugin :=
  StatsWriterPlugin js:"client-stats.json"
    [js:"chunks"; js:"publicPath"; js:"assets"; js:"assetsByChunkName";
     js:"assetsByChunkId"].

(** The callback of the [reduce]: [{ ...result, [key]: JSON.stringify(env[key]) }],
    a copy of [result] with [key] set. *)
Definition define_entry (result : gmap js_string Value.t) (key : js_string)
  : gmap js_string Value.t :=
  <[key := JSON.stringify (Value.get env key)]> result.

Definition getDefinePlugin (isServer : bool) : Define.t :=
  {| Define.process_env :=
       if isServer
       then Define.Code js:"process.env"
       else Define.Object (Array_reduce define_entry ∅ (Object_keys env));
     Define.__isServer := isServer |}.

Definition limitChunksPlugin : plugin := LimitChunkCountPlugin 1.

Definition clientConfig : Configuration.t :=
  {| Configuration.name := js:"client";
     Configuration.target := js:"web";
     Configuration.resolve :=
       {| Resolve.modules := [js:"src"; js:"node_modules"];
          Resolve.extensions := [js:".ts"; js:".tsx"; js:".js"; js:".jsx"];
          Resolve.mainFields := [js:"browser"; js:"module"; js:"main"] |};
     Configuration.entry := [js:"babel-polyfill"; js:"./src/client"];
     Configuration.optimization := Some
       {| Optimization.splitChunks :=
            {| Optimization.cacheGroups :=
                 {[ js:"vendor" :=
                      {| CacheGroup.chunks := CacheGroup.initial;
                         CacheGroup.enforce := true;
                         CacheGroup.name := js:"vendor";
                         CacheGroup.priority := 10%Z;
                         (* /[\\/]node_modules/ *)
                         CacheGroup.test :=
                           RegExp.Class false [RegExp.Single 92; RegExp.Single 47]
                             :: RegExp.chars js:"node_modules" |} ]} |} |};
     Configuration.externalsPresets := None;
     Configuration.externals := [];
     Configuration.output :=
       {| Output.publicPath := publicPath;
          Output.path := dist;
          Output.filename := js:"[name]-[fullhash:8].js";
          Output.chunkFilename := Some js:"[name]-[chunkhash].chunk.js";
          Output.clean := Some true;
          Output.libraryTarget := None |};
     Configuration.plugins :=
       [ForkTsCheckerWebpackPlugin; favIconPlugin; statsWriterPlugin;
        DefinePlugin (getDefinePlugin false)] |}.

Definition serverConfig : Configuration.t :=
  {| Configuration.name := js:"server";
     Configuration.target := js:"node";
     Configuration.resolve :=
       {| Resolve.modules := [js:"src"; js:"node_modules"];
          Resolve.extensions := [js:".ts"; js:".tsx"; js:".js"; js:".jsx"];
          Resolve.mainFields := [js:"browser"; js:"module"; js:"main"] |};
     Configuration.entry := [js:"babel-polyfill"; js:"./src/server"];
     Configuration.optimization := None;
     Configuration.externalsPresets := Some {| Externals.node := true |};
     (* nodeExternals({ allowlist: /lyft/ }) *)
     Configuration.externals :=
       [Externals.nodeExternals (RegExp.chars js:"lyft")];
     Configuration.output :=
       {| Output.publicPath := js:"/";
          Output.path := dist;
          Output.filename := js:"server.js";
          Output.chunkFilename := None;
          Output.clean := None;
          Output.libraryTarget := Some js:"commonjs2" |};
     Configuration.plugins :=
       [limitChunksPlugin; ForkTsCheckerWebpackPlugin;
        DefinePlugin (getDefinePlugin true)] |}.

End Module_body.

(** ** What the bundler does with the configuration *)

(** Modelled from the spec: the externals function that [nodeExternals]
    returns belongs to the package webpack-node-externals, which is not
    part of the source file.  The spec says that it excludes every
    host-provided runtime package from the bundle, except a package whose
    name matches the allow-listed pattern. *)
Definition externalizes (host_packages : gset js_string)
  (rule : Externals.item) (module_name : js_string) : bool :=
  match rule with
  | Externals.nodeExternals allowlist =>
      bool_decide (module_name ∈ host_packages)
        && negb (RegExp.test allowlist module_name)
  end.

(** Modelled from the spec: how the bundler reads the [externals] list,
    which the source file only fills in.  A module stays out of the bundle
    when one of the entries of the configuration externalizes it. *)
Definition externalized (host_packages : gset js_string)
  (config : Configuration.t) (module_name : js_string) : bool :=
  existsb (fun rule => externalizes host_packages rule module_name)
          (Configuration.externals config).

(** Modelled from the spec: the priority the bundler gives to a cache
    group that sets none, which the spec states to be 0. *)
Definition default_priority : Z := 0%Z.

(** A path separator, as the class [[\\/]] reads it. *)
Definition is_separator (c : JsString.code_unit) : bool :=
  (c =? 47) || (c =? 92).

(** A code unit that [QuoteJSONString] copies as it is: no control
    character, quotation mark, reverse solidus or surrogate. *)
Definition plain_unit (c : JsString.code_unit) : bool :=
  (32 <=? c) && negb (c =? 34) && negb (c =? 92)
  && negb (JsString.is_leading_surrogate c)
  && negb (JsString.is_trailing_surrogate c).

(** ** General regular expressions

    The loader rules use patterns beyond sequences of atoms: alternation,
    an optional group, [.*] and the end anchor [$].  None has a back
    reference or a look-around, so whether [test] succeeds depends only on
    the language of the pattern.  Matching is by derivatives. *)

Module Regex.

Inductive t : Type :=
| Void                       (* no string at all; arises in derivatives only *)
| Empty                      (* the empty pattern *)
| Unit (a : RegExp.atom)     (* a literal character or a class *)
| Dot                        (* [.] without the [s] flag *)
| Cat (r1 r2 : t)
| Alt (r1 r2 : t)            (* [r1|r2] *)
| Star (r : t).              (* [r*] *)

(** [r?] *)
Definition Opt (r : t) : t := Alt r Empty.

(** A run of literal characters. *)
Fixpoint word (w : js_string) : t :=
  match w with
  | [] => Empty
  | c :: w' => Cat (Unit (RegExp.Char c)) (word w')
  end.

(** [r|r1|...|rn] *)
Fixpoint one_of (r : t) (rs : list t) : t :=
  match rs with
  | [] => r
  | r' :: rs' => Alt r (one_of r' rs')
  end.

(** The line terminators, which [.] does not match: LF, CR, LS and PS. *)
Definition is_line_terminator (c : JsString.code_unit) : bool :=
  (c =? 10) || (c =? 13) || (c =? 8232) || (c =? 8233).

Fixpoint nullable (r : t) : bool :=
  match r with
  | Void => false
  | Empty => true
  | Unit _ => false
  | Dot => false
  | Cat r1 r2 => nullable r1 && nullable r2
  | Alt r1 r2 => nullable r1 || nullable r2
  | Star _ => true
  end.

(** What is left of [r] once [c] has been read. *)
Fixpoint deriv (c : JsString.code_unit) (r : t) : t :=
  match r with
  | Void => Void
  | Empty => Void
  | Unit a => if RegExp.atom_matches a c then Empty else Void
  | Dot => if is_line_terminator c then Void else Empty
  | Cat r1 r2 =>
      if nullable r1
      then Alt (Cat (deriv c r1) r2) (deriv c r2)
      else Cat (deriv c r1) r2
  | Alt r1 r2 => Alt (deriv c r1) (deriv c r2)
  | Star r1 => Cat (deriv c r1) (Star r1)
  end.

(** The whole of [s] matches [r]. *)
Fixpoint accepts (r : t) (s : js_string) : bool :=
  match s with
  | [] => nullable r
  | c :: s' => accepts (deriv c r) s'
  end.

(** [/r$/.test(s)], without the [m] flag: a match that starts at some
    index and ends with the input. *)
Fixpoint test_to_end (r : t) (s : js_string) : bool :=
  accepts r s ||
  match s with
  | [] => false
  | _ :: s' => test_to_end r s'
  end.

(** The strings of a pattern. *)
Inductive lang : t -> js_string -> Prop :=
| lang_Empty : lang Empty []
| lang_Unit a c : RegExp.atom_matches a c = true -> lang (Unit a) [c]
| lang_Dot c : is_line_terminator c = false -> lang Dot [c]
| lang_Cat r1 r2 s1 s2 :
    lang r1 s1 -> lang r2 s2 -> lang (Cat r1 r2) (s1 ++ s2)
| lang_Alt_l r1 r2 s : lang r1 s -> lang (Alt r1 r2) s
| lang_Alt_r r1 r2 s : lang r2 s -> lang (Alt r1 r2) s
| lang_Star_nil r : lang (Star r) []
| lang_Star_more r s1 s2 :
    lang r s1 -> lang (Star r) s2 -> lang (Star r) (s1 ++ s2).

End Regex.

(** ** Loader rules *)

Module Rule.

(** An entry of [use]: a loader name, or a loader with its options. *)
Inductive use_item : Type :=
| loader (name : js_string)
| loader_with (name : js_string) (transpileOnly : bool).

Record t : Type := {
  test : Regex.t;                    (* the pattern before the final [$] *)
  enforce : option js_string;
  use : option (list use_item);
  type : option js_string;
  exclude : option RegExp.pattern;
  include : option js_string;
}.

End Rule.

(** The extensions of [imageAndFontsRule], in the order of the pattern. *)
Definition image_and_font_extensions : list js_string :=
  [js:"ico"; js:"jpg"; js:"jpeg"; js:"png"; js:"gif"; js:"eot"; js:"otf";
   js:"webp"; js:"svg"; js:"ttf"; js:"woff"; js:"woff2"].

(** [/\.js$/] *)
Definition sourceMapRule : Rule.t :=
  {| Rule.test := Regex.word js:".js";
     Rule.enforce := Some js:"pre";
     Rule.use := Some [Rule.loader js:"source-map-loader"];
     Rule.type := None;
     Rule.exclude := None;
     Rule.include := None |}.

(** The pattern of [imageAndFontsRule]: [\.], a group with the twelve
    extensions as alternatives, and an optional group made of [\?] and
    [.*], up to the final [$]. *)
Definition imageAndFontsRule : Rule.t :=
  {| Rule.test :=
       Regex.Cat (Regex.Unit (RegExp.Char 46))
         (Regex.Cat
            (Regex.one_of (Regex.word js:"ico")
               (List.map Regex.word (tl image_and_font_extensions)))
            (Regex.Opt (Regex.Cat (Regex.Unit (RegExp.Char 63))
                                  (Regex.Star Regex.Dot))));
     Rule.enforce := None;
     Rule.use := None;
     Rule.type := Some js:"asset/resource";
     Rule.exclude := None;
     Rule.include := None |}.

Section Module_rules.

Variable __dirname : js_string.
Variable path_resolve : list js_string -> js_string.

(** [/\.tsx?$/], excluding [/node_modules/]. *)
Definition typescriptRule : Rule.t :=
  {| Rule.test :=
       Regex.Cat (Regex.word js:".ts")
                 (Regex.Opt (Regex.Unit (RegExp.Char 120)));
     Rule.enforce := None;
     Rule.use := Some [Rule.loader_with js:"ts-loader" true];
     Rule.type := None;
     Rule.exclude := Some (RegExp.chars js:"node_modules");
     Rule.include := Some (path_resolve [__dirname; js:"src"]) |}.

(** [module.rules], the same list in [clientConfig] and [serverConfig]. *)
Definition module_rules : list Rule.t :=
  [sourceMapRule; typescriptRule; imageAndFontsRule].

End Module_rules.

(** ** Loading the module

    The statements of the module run once, in order; one that throws ends
    the load, and nothing is exported. *)

Inductive completion (A : Type) : Type :=
| Normal (a : A)
| Throw_TypeError.
Arguments Normal {A} a.
Arguments Throw_TypeError {A}.

Definition completion_bind {A B} (c : completion A) (k : A -> completion B)
  : completion B :=
  match c with
  | Normal a => k a
  | Throw_TypeError => Throw_TypeError
  end.

(** [package.json], with the type the source declares for it. *)
Record package_json : Type := {
  dependencies : gmap js_string js_string;
  devDependencies : gmap js_string js_string;
}.

(** [absoluteVersion(o[key])]: a missing key reads as [undefined], and
    [undefined.replace] throws a [TypeError]. *)
Definition absoluteVersion_at (o : gmap js_string js_string) (key : js_string)
  : completion js_string :=
  match o !! key with
  | Some version => Normal (absoluteVersion version)
  | None => Throw_TypeError
  end.

Definition cdnReact (packageJson : package_json) : completion js_string :=
  completion_bind (absoluteVersion_at (devDependencies packageJson) js:"react")
    (fun v => Normal (js:"https://unpkg.com/react@" ++ v
                        ++ js:"/umd/react.production.min.js")).

Definition cdnReactDOM (packageJson : package_json) : completion js_string :=
  completion_bind
    (absoluteVersion_at (devDependencies packageJson) js:"react-dom")
    (fun v => Normal (js:"https://unpkg.com/react-dom@" ++ v
                        ++ js:"/umd/react-dom.production.min.js")).

(** The default export [{ clientConfig, serverConfig }], reached when the
    two CDN paths above it have been computed. *)
Definition default_export (packageJson : package_json)
  (env : gmap js_string Value.t) (__dirname : js_string)
  (path_join path_resolve : list js_string -> js_string)
  : completion (Configuration.t * Configuration.t) :=
  completion_bind (cdnReact packageJson) (fun _ =>
  completion_bind (cdnReactDOM packageJson) (fun _ =>
  Normal (clientConfig env __dirname path_join path_resolve,
          serverConfig env __dirname path_join))).

(** ** Reading the configuration *)

(** [config.optimization.splitChunks.cacheGroups.vendor] *)
Definition cacheGroups_vendor (config : Configuration.t) : option CacheGroup.t :=
  match Configuration.optimization config with
  | Some o =>
      Optimization.cacheGroups (Optimization.splitChunks o) !! js:"vendor"
  | None => None
  end.

Definition is_DefinePlugin (p : plugin) : bool :=
  match p with
  | DefinePlugin _ => true
  | _ => false
  end.

(** ** Notions the properties are stated with *)

(** The characters that give a URL its shape. *)
Definition url_delimiter (c : JsString.code_unit) : bool :=
  existsb (N.eqb c) js:":/?#@%& ".

(** The body of a string literal, as a lexer reads it: a reverse solidus
    takes the next code unit with it; a bare quotation mark or control
    character does not belong. *)
Fixpoint literal_body (s : js_string) : bool :=
  match s with
  | [] => true
  | c :: rest =>
      if c =? 92 then
        match rest with
        | [] => false
        | _ :: rest' => literal_body rest'
        end
      else negb (c =? 34) && negb (c <? 32) && literal_body rest
  end.

(** Reading a string literal back, as [JSON.parse] reads the body of a
    JSON string: the value of a hexadecimal digit, the character behind a
    two-character escape, and the scan itself, which fails on a bare
    quotation mark or control character and on a malformed escape. *)
Definition unhex (c : JsString.code_unit) : option N :=
  if JsString.is_digit c then Some (c - 48)
  else if (97 <=? c) && (c <=? 102) then Some (c - 87)
  else if (65 <=? c) && (c <=? 70) then Some (c - 55)
  else None.

Definition short_unescape (e : JsString.code_unit) : option JsString.code_unit :=
  if e =? 98 then Some 8
  else if e =? 116 then Some 9
  else if e =? 110 then Some 10
  else if e =? 102 then Some 12
  else if e =? 114 then Some 13
  else if e =? 34 then Some 34
  else if e =? 92 then Some 92
  else if e =? 47 then Some 47
  else None.

Fixpoint unquote_body (s : js_string) : option js_string :=
  match s with
  | [] => Some []
  | c :: rest =>
      if c =? 92 then
        match rest with
        | [] => None
        | e :: rest' =>
            if e =? 117 then
              match rest' with
              | h3 :: h2 :: h1 :: h0 :: rest'' =>
                  match unhex h3, unhex h2, unhex h1, unhex h0 with
                  | Some n3, Some n2, Some n1, Some n0 =>
                      option_map (cons (4096 * n3 + 256 * n2 + 16 * n1 + n0))
                                 (unquote_body rest'')
                  | _, _, _, _ => None
                  end
              | _ => None
              end
            else
              match short_unescape e with
              | Some u => option_map (cons u) (unquote_body rest')
              | None => None
              end
        end
      else if (c =? 34) || (c <? 32) then None
      else option_map (cons c) (unquote_body rest)
  end.

(** * Properties *)

(** ** Regular expressions *)

Lemma matches_prefix_app (p : RegExp.pattern) (s t : js_string) :
  RegExp.matches_prefix p s = true -> RegExp.matches_prefix p (s ++ t) = true.
Proof.
  revert s. induction p as [|a p IH]; intros [|c s]; simpl; try easy.
  intros [Ha Hp]%andb_true_iff. rewrite Ha. simpl. apply IH, Hp.
Qed.

Lemma matches_prefix_chars (w t : js_string) :
  RegExp.matches_prefix (RegExp.chars w) (w ++ t) = true.
Proof.
  induction w as [|c w IH]; simpl; [reflexivity|].
  rewrite N.eqb_refl. exact IH.
Qed.

Lemma matches_prefix_chars_inv (w s : js_string) :
  RegExp.matches_prefix (RegExp.chars w) s = true -> exists t, s = w ++ t.
Proof.
  revert s. induction w as [|c w IH]; intros s; simpl.
  - intros _. exists s. reflexivity.
  - destruct s as [|d s]; [discriminate|].
    intros [Hc Hw]%andb_true_iff. apply N.eqb_eq in Hc. subst d.
    destruct (IH s Hw) as [t ->]. exists t. reflexivity.
Qed.

Lemma test_here (p : RegExp.pattern) (s : js_string) :
  RegExp.matches_prefix p s = true -> RegExp.test p s = true.
Proof. intros H. destruct s; simpl in *; rewrite H; reflexivity. Qed.

Lemma test_later (p : RegExp.pattern) (pre s : js_string) :
  RegExp.test p s = true -> RegExp.test p (pre ++ s) = true.
Proof.
  intros H. induction pre as [|c pre IH]; [exact H|].
  cbn [app RegExp.test]. rewrite IH. apply orb_true_r.
Qed.

(** An unanchored pattern of literal characters is a substring search. *)
Lemma test_chars_substring (w s : js_string) :
  RegExp.test (RegExp.chars w) s = true <->
  exists pre post, s = pre ++ w ++ post.
Proof.
  split.
  - induction s as [|c s IH]; simpl.
    + rewrite orb_false_r. intros [t Ht]%matches_prefix_chars_inv.
      exists [], t. exact Ht.
    + intros [H|H]%orb_true_iff.
      * apply matches_prefix_chars_inv in H as [t Ht].
        exists [], t. exact Ht.
      * destruct (IH H) as (pre & post & ->).
        exists (c :: pre), post. reflexivity.
  - intros (pre & post & ->).
    apply test_later, test_here, matches_prefix_chars.
Qed.

(** ** The version sanitizer *)

Lemma version_junk_matches (c : JsString.code_unit) :
  RegExp.atom_matches version_junk c = negb (version_char c).
Proof.
  unfold version_junk, version_char, JsString.is_lower. simpl.
  destruct (JsString.is_digit c), (c =? 46), (c =? 45),
    ((97 <=? c) && (c <=? 122)); reflexivity.
Qed.

Lemma absoluteVersion_filter (s : js_string) :
  absoluteVersion s = List.filter version_char s.
Proof.
  unfold absoluteVersion.
  induction s as [|c s IH]; [reflexivity|].
  cbn [RegExp.replace_all List.filter].
  rewrite version_junk_matches, IH.
  destruct (version_char c); reflexivity.
Qed.

Lemma filter_sublist {A} (f : A -> bool) (l : list A) :
  sublist (List.filter f l) l.
Proof.
  induction l as [|x l IH]; simpl; [constructor|].
  destruct (f x); constructor; exact IH.
Qed.

Lemma filter_all {A} (f : A -> bool) (l : list A) :
  Forall (fun x => f x = true) (List.filter f l).
Proof.
  induction l as [|x l IH]; simpl; [constructor|].
  destruct (f x) eqn:Hx; [constructor|]; assumption.
Qed.

Lemma filter_fixed {A} (f : A -> bool) (l : list A) :
  Forall (fun x => f x = true) l -> List.filter f l = l.
Proof.
  induction 1 as [|x l Hx _ IH]; simpl; [reflexivity|].
  rewrite Hx, IH. reflexivity.
Qed.

(** The filtered list is the largest subsequence within the set: it
    contains every other one. *)
Lemma filter_greatest {A} (f : A -> bool) (t l : list A) :
  sublist t l -> Forall (fun x => f x = true) t ->
  sublist t (List.filter f l).
Proof.
  induction 1 as [|x t l _ IH|x t l _ IH]; intros Ht; simpl.
  - constructor.
  - inversion Ht as [|? ? Hx Ht']; subst. rewrite Hx.
    constructor. apply IH, Ht'.
  - destruct (f x); [constructor|]; apply IH, Ht.
Qed.

Lemma absoluteVersion_greatest (t s : js_string) :
  sublist t s -> Forall (fun c => version_char c = true) t ->
  sublist t (absoluteVersion s).
Proof. rewrite absoluteVersion_filter. apply filter_greatest. Qed.

Example absoluteVersion_range :
  absoluteVersion js:">= 16.8.0 <17 || ~18.0.0-RC" = js:"16.8.01718.0.0-".
Proof. vm_compute. reflexivity. Qed.

Example absoluteVersion_plain :
  absoluteVersion js:"1.2.3-alpha.0" = js:"1.2.3-alpha.0".
Proof. vm_compute. reflexivity. Qed.

(** C3: for every input string, [absoluteVersion] returns the string
    obtained by deleting every character that is not a digit, a lowercase
    letter, a period or a hyphen, the remaining characters keeping their
    order; the empty string maps to the empty string; the function is
    total, so no input raises an error; and [^1.2.3-alpha.1] maps to
    [1.2.3-alpha.1]. *)
Theorem absoluteVersion_deletes_other_characters :
  (forall s : js_string, absoluteVersion s = List.filter version_char s)
  /\ absoluteVersion js:"" = js:""
  /\ absoluteVersion js:"^1.2.3-alpha.1" = js:"1.2.3-alpha.1".
Proof.
  split; [exact absoluteVersion_filter|].
  split; vm_compute; reflexivity.
Qed.

(** C4: [absoluteVersion] is idempotent, and its result is a subsequence of
    the input that consists exactly of the input's characters drawn from
    the set of digits, lowercase letters, period and hyphen. *)
Theorem absoluteVersion_idempotent_subsequence (s : js_string) :
  absoluteVersion (absoluteVersion s) = absoluteVersion s
  /\ sublist (absoluteVersion s) s
  /\ Forall (fun c => version_char c = true) (absoluteVersion s)
  /\ (forall c, count_occ N.eq_dec (absoluteVersion s) c =
                if version_char c then count_occ N.eq_dec s c else 0%nat).
Proof.
  rewrite !absoluteVersion_filter. repeat split.
  - apply filter_fixed, filter_all.
  - apply filter_sublist.
  - apply filter_all.
  - intros c. induction s as [|d s IH]; simpl.
    + destruct (version_char c); reflexivity.
    + destruct (version_char d) eqn:Hd; simpl;
        destruct (N.eq_dec d c) as [->|Hne]; rewrite IH; try reflexivity.
      * rewrite Hd. reflexivity.
      * rewrite Hd. reflexivity.
Qed.

(** ** The environment projector *)

Section Projector.

Context (env : gmap js_string Value.t).

Lemma elem_of_Object_keys (key : js_string) :
  key ∈ Object_keys env <-> is_Some (env !! key).
Proof.
  unfold Object_keys. rewrite list_elem_of_fmap. split.
  - intros [[k v] [-> Hin]]. apply elem_of_map_to_list in Hin.
    exists v. exact Hin.
  - intros [v Hv]. exists (key, v). split; [reflexivity|].
    apply elem_of_map_to_list. exact Hv.
Qed.

(** The accumulator after the keys of [keys] went through the callback:
    a key of the list holds the encoding of its environment value, any
    other key holds what the initial object had. *)
Lemma reduce_define_entry_lookup (keys : list js_string)
  (init : gmap js_string Value.t) (key : js_string) :
  Array_reduce (define_entry env) init keys !! key =
  if decide (key ∈ keys)
  then Some (JSON.stringify (Value.get env key))
  else init !! key.
Proof.
  unfold Array_reduce. revert init.
  induction keys as [|k keys IH]; intros init; cbn [fold_left].
  - rewrite decide_False; [reflexivity|]. apply not_elem_of_nil.
  - rewrite IH. unfold define_entry.
    destruct (decide (key ∈ keys)) as [Hin|Hout].
    + rewrite decide_True; [reflexivity|]. apply elem_of_cons. right. exact Hin.
    + destruct (decide (key = k)) as [->|Hne].
      * rewrite lookup_insert_eq.
        rewrite decide_True; [reflexivity|]. apply elem_of_cons. left. reflexivity.
      * rewrite lookup_insert_ne by congruence.
        rewrite decide_False; [reflexivity|].
        intros [?|?]%elem_of_cons; contradiction.
Qed.

(** The browser-side object is the environment with every value encoded. *)
Lemma reduce_define_entry_fmap :
  Array_reduce (define_entry env) ∅ (Object_keys env) = JSON.stringify <$> env.
Proof.
  apply map_eq. intros key.
  rewrite reduce_define_entry_lookup, lookup_fmap.
  destruct (decide (key ∈ Object_keys env)) as [Hin|Hout].
  - apply elem_of_Object_keys in Hin as [v Hv].
    unfold Value.get. rewrite Hv. reflexivity.
  - destruct (env !! key) as [v|] eqn:Hv.
    + exfalso. apply Hout, elem_of_Object_keys. exists v. exact Hv.
    + rewrite lookup_empty. reflexivity.
Qed.

End Projector.

Lemma stringify_string_quoted (s : js_string) :
  JSON.stringify (Value.Str s) =
  Value.Str (JSON.quotation_mark :: JSON.quote_body s ++ [JSON.quotation_mark]).
Proof. reflexivity. Qed.

Lemma quote_unit_plain (c : JsString.code_unit) :
  plain_unit c = true -> JSON.quote_unit c = [c].
Proof.
  unfold plain_unit. rewrite !andb_true_iff, !negb_true_iff.
  intros [[[[H32 H34] H92] Hlead] Htrail].
  apply N.leb_le in H32. apply N.eqb_neq in H34, H92.
  unfold JSON.quote_unit, JSON.short_escape.
  repeat match goal with
         | |- context [c =? ?k] =>
             destruct (N.eqb_spec c k) as [E|_]; [exfalso; lia|]
         end.
  rewrite Hlead, Htrail.
  destruct (N.ltb_spec c 32); [lia|]. reflexivity.
Qed.

Lemma quote_body_plain (s : js_string) :
  forallb plain_unit s = true -> JSON.quote_body s = s.
Proof.
  induction s as [|c s IH]; [reflexivity|].
  cbn [forallb]. intros [Hc Hs]%andb_true_iff.
  cbn [JSON.quote_body].
  assert (Hlead : JsString.is_leading_surrogate c = false).
  { unfold plain_unit in Hc. rewrite !andb_true_iff, !negb_true_iff in Hc.
    tauto. }
  rewrite Hlead, (quote_unit_plain c Hc), (IH Hs). reflexivity.
Qed.

(** A plain string comes out unchanged between two quotation marks. *)
Lemma stringify_plain (s : js_string) :
  forallb plain_unit s = true ->
  JSON.stringify (Value.Str s) =
  Value.Str (JSON.quotation_mark :: s ++ [JSON.quotation_mark]).
Proof.
  intros Hs. rewrite stringify_string_quoted, (quote_body_plain s Hs).
  reflexivity.
Qed.

Example stringify_base_url :
  JSON.stringify (Value.Str js:"https://x.com")
  = Value.Str (34 :: js:"https://x.com" ++ [34]).
Proof. vm_compute. reflexivity. Qed.

Example stringify_escapes :
  JSON.stringify (Value.Str [97; 34; 10; 1; 56320; 55357; 56832])
  = Value.Str ([34; 97; 92; 34; 92; 110] ++ js:"\u0001\udc00"
                 ++ [55357; 56832] ++ [34]).
Proof. vm_compute. reflexivity. Qed.

Example stringify_not_a_string :
  JSON.stringify (Value.Boolean true) = Value.Str js:"true"
  /\ JSON.stringify Value.Undefined = Value.Undefined.
Proof. split; reflexivity. Qed.

(** C1: for every environment mapping, [getDefinePlugin(false)] carries an
    object whose keys are exactly the keys of the environment, in which
    every value is the JSON encoding of the environment's value under the
    same key, a string value coming out as a quoted string literal even
    when it looks like a number or a boolean; the [__isServer] flag is
    [false]. *)
Theorem getDefinePlugin_browser (env : gmap js_string Value.t) :
  getDefinePlugin env false =
    {| Define.process_env := Define.Object (JSON.stringify <$> env);
       Define.__isServer := false |}
  /\ dom (JSON.stringify <$> env) = dom env
  /\ (forall key : js_string,
        (JSON.stringify <$> env) !! key = JSON.stringify <$> (env !! key))
  /\ (forall s : js_string,
        JSON.stringify (Value.Str s) =
        Value.Str (JSON.quotation_mark :: JSON.quote_body s
                     ++ [JSON.quotation_mark]))
  /\ JSON.stringify (Value.Str js:"3000")
       = Value.Str (JSON.quotation_mark :: js:"3000" ++ [JSON.quotation_mark])
  /\ JSON.stringify (Value.Str js:"true")
       = Value.Str (JSON.quotation_mark :: js:"true" ++ [JSON.quotation_mark]).
Proof.
  split.
  { unfold getDefinePlugin. rewrite reduce_define_entry_fmap. reflexivity. }
  split; [apply dom_fmap_L|].
  split; [intros key; apply lookup_fmap|].
  split; [exact stringify_string_quoted|].
  split; vm_compute; reflexivity.
Qed.

(** C2: for every environment mapping, [getDefinePlugin(true)] carries the
    code fragment [process.env], whatever the environment holds, and the
    [__isServer] flag is [true]. *)
Theorem getDefinePlugin_server (env : gmap js_string Value.t) :
  getDefinePlugin env true =
    {| Define.process_env := Define.Code js:"process.env";
       Define.__isServer := true |}.
Proof. reflexivity. Qed.

Example getDefinePlugin_spec_example :
  getDefinePlugin
    {[ js:"BASE_URL" := Value.Str js:"https://x.com";
       js:"NODE_ENV" := Value.Str js:"production" ]} false
  = {| Define.process_env := Define.Object
         {[ js:"BASE_URL" := Value.Str (34 :: js:"https://x.com" ++ [34]);
            js:"NODE_ENV" := Value.Str (34 :: js:"production" ++ [34]) ]};
       Define.__isServer := false |}.
Proof.
  unfold getDefinePlugin. rewrite reduce_define_entry_fmap.
  rewrite fmap_insert, map_fmap_singleton. reflexivity.
Qed.

(** ** The service name *)

Lemma serviceName_truthy (penv : process_env_t) (s : js_string) :
  penv !! js:"SERVICE_NAME" = Some s -> s <> [] ->
  serviceName penv = Value.Str s.
Proof.
  intros Hs Hne. unfold serviceName, process_env_get. rewrite Hs.
  destruct s as [|c s]; [contradiction|]. reflexivity.
Qed.

Lemma serviceName_falsy (penv : process_env_t) :
  Value.to_boolean (process_env_get penv js:"SERVICE_NAME") = false ->
  serviceName penv = Value.Str js:"not set".
Proof. intros H. unfold serviceName, Value.or. rewrite H. reflexivity. Qed.

(** C9: with [SERVICE_NAME] unset the module still loads and the exported
    service name is the placeholder [not set]; with [SERVICE_NAME] set to a
    non-empty string the exported service name is that string. *)
Theorem serviceName_unset_or_set (penv : process_env_t) :
  (penv !! js:"SERVICE_NAME" = None ->
   serviceName penv = Value.Str js:"not set")
  /\ (forall s : js_string,
        penv !! js:"SERVICE_NAME" = Some s -> s <> [] ->
        serviceName penv = Value.Str s).
Proof.
  split.
  - intros Hnone. apply serviceName_falsy.
    unfold process_env_get. rewrite Hnone. reflexivity.
  - apply serviceName_truthy.
Qed.

Lemma serviceName_unset_or_set_witness :
  ((∅ : process_env_t) !! js:"SERVICE_NAME" = None
   /\ serviceName ∅ = Value.Str js:"not set")
  /\ (({[ js:"SERVICE_NAME" := js:"flyteconsole" ]} : process_env_t)
        !! js:"SERVICE_NAME" = Some js:"flyteconsole"
      /\ js:"flyteconsole" <> []
      /\ serviceName {[ js:"SERVICE_NAME" := js:"flyteconsole" ]}
         = Value.Str js:"flyteconsole").
Proof.
  split.
  - split; [apply lookup_empty|].
    apply (proj1 (serviceName_unset_or_set ∅)). apply lookup_empty.
  - split; [apply lookup_singleton_eq|].
    split; [discriminate|].
    apply (proj2 (serviceName_unset_or_set
                    {[ js:"SERVICE_NAME" := js:"flyteconsole" ]})).
    + apply lookup_singleton_eq.
    + discriminate.
Defined.

(** C10: with [SERVICE_NAME] set to the empty string the exported service
    name is still [not set]: the default stands in for every falsy value,
    unset or empty, so the exported service name is never the empty
    string. *)
Theorem serviceName_empty_is_defaulted (penv : process_env_t) :
  (penv !! js:"SERVICE_NAME" = Some [] ->
   serviceName penv = Value.Str js:"not set")
  /\ (Value.to_boolean (process_env_get penv js:"SERVICE_NAME") = false ->
      serviceName penv = Value.Str js:"not set")
  /\ serviceName penv <> Value.Str [].
Proof.
  split; [|split].
  - intros Hempty. apply serviceName_falsy.
    unfold process_env_get. rewrite Hempty. reflexivity.
  - apply serviceName_falsy.
  - unfold serviceName, Value.or, process_env_get.
    destruct (penv !! js:"SERVICE_NAME") as [[|c s]|]; discriminate.
Qed.

Lemma serviceName_empty_is_defaulted_witness :
  ({[ js:"SERVICE_NAME" := [] ]} : process_env_t) !! js:"SERVICE_NAME"
    = Some []
  /\ serviceName {[ js:"SERVICE_NAME" := [] ]} = Value.Str js:"not set".
Proof.
  split; [apply lookup_singleton_eq|].
  apply (proj1 (serviceName_empty_is_defaulted {[ js:"SERVICE_NAME" := [] ]})).
  apply lookup_singleton_eq.
Defined.

(** ** The allow-list of the server profile *)

(** [/lyft/] accepts a name exactly when [lyft] occurs somewhere in it. *)
Lemma lyft_allowlist_substring (module_name : js_string) :
  RegExp.test (RegExp.chars js:"lyft") module_name = true <->
  exists pre post, module_name = pre ++ js:"lyft" ++ post.
Proof. apply test_chars_substring. Qed.

Example lyft_allowlist_inside_name :
  RegExp.test (RegExp.chars js:"lyft") js:"flyft-utils" = true.
Proof. vm_compute. reflexivity. Qed.

(** ** The client profile *)

Section Profiles.

Context (env : gmap js_string Value.t) (__dirname : js_string)
        (path_join path_resolve : list js_string -> js_string).

Let client : Configuration.t :=
  clientConfig env __dirname path_join path_resolve.
Let server : Configuration.t :=
  serverConfig env __dirname path_join.

(** The [test] of the vendor group finds [node_modules] behind a slash or
    a backslash, wherever it stands in the path. *)
Lemma node_modules_pattern_matches (dir rest : js_string)
  (sep : JsString.code_unit) :
  is_separator sep = true ->
  RegExp.test
    (RegExp.Class false [RegExp.Single 92; RegExp.Single 47]
       :: RegExp.chars js:"node_modules")
    (dir ++ sep :: js:"node_modules" ++ rest) = true.
Proof.
  intros Hsep. apply test_later, test_here.
  cbn [RegExp.matches_prefix]. apply andb_true_iff. split.
  - unfold is_separator in Hsep. cbn.
    apply orb_true_iff in Hsep as [->| ->]; [apply orb_true_r|reflexivity].
  - apply matches_prefix_chars.
Qed.

(** C5: the code-splitting policy of the client profile has one cache
    group, [vendor]; its test matches every module path that lies under a
    [node_modules] directory; it applies to initial chunks, is enforced,
    and has priority 10, above the default priority 0. *)
Theorem client_vendor_cache_group (dir rest : js_string)
  (sep sep' : JsString.code_unit)
  (Hsep : is_separator sep = true) (Hsep' : is_separator sep' = true) :
  exists vendor : CacheGroup.t,
    Configuration.optimization client =
      Some {| Optimization.splitChunks :=
                {| Optimization.cacheGroups := {[ js:"vendor" := vendor ]} |} |}
    /\ size ({[ js:"vendor" := vendor ]} : gmap js_string CacheGroup.t) = 1%nat
    /\ CacheGroup.name vendor = js:"vendor"
    /\ CacheGroup.chunks vendor = CacheGroup.initial
    /\ CacheGroup.enforce vendor = true
    /\ CacheGroup.priority vendor = 10%Z
    /\ (default_priority < CacheGroup.priority vendor)%Z
    /\ RegExp.test (CacheGroup.test vendor)
         (dir ++ sep :: js:"node_modules" ++ sep' :: rest) = true.
Proof.
  eexists. split; [reflexivity|].
  split; [apply map_size_singleton|].
  repeat (split; [reflexivity|]).
  cbn [CacheGroup.test]. apply node_modules_pattern_matches, Hsep.
Qed.

(** C7: the client profile names a main file [[name]-[fullhash:8].js], the
    entry name followed by eight characters of the hash of the whole
    build, names a split chunk [[name]-[chunkhash].chunk.js], the chunk
    name followed by the hash of that chunk, and clears the output
    directory before a build. *)
Theorem client_output_naming :
  Output.filename (Configuration.output client) = js:"[name]-[fullhash:8].js"
  /\ Output.filename (Configuration.output client)
       = js:"[name]" ++ js:"-" ++ js:"[fullhash:8]" ++ js:".js"
  /\ Output.chunkFilename (Configuration.output client)
       = Some js:"[name]-[chunkhash].chunk.js"
  /\ Output.chunkFilename (Configuration.output client)
       = Some (js:"[name]" ++ js:"-" ++ js:"[chunkhash]" ++ js:".chunk.js")
  /\ Output.clean (Configuration.output client) = Some true.
Proof. repeat split. Qed.

(** ** The server profile *)

(** C6: the server profile holds the chunk count at 1, its plugin list
    having one chunk-limiting plugin, with [maxChunks] 1, and its output
    file has the fixed name [server.js], in which no hash placeholder
    stands. *)
Theorem server_single_chunk_fixed_name :
  limitChunksPlugin = LimitChunkCountPlugin 1
  /\ In limitChunksPlugin (Configuration.plugins server)
  /\ List.filter is_LimitChunkCountPlugin (Configuration.plugins server)
       = [LimitChunkCountPlugin 1]
  /\ Output.filename (Configuration.output server) = js:"server.js"
  /\ existsb (N.eqb 91) (Output.filename (Configuration.output server)) = false.
Proof.
  split; [reflexivity|].
  split; [left; reflexivity|].
  repeat split.
Qed.

(** C8: in the server profile a module whose name matches [/lyft/] is never
    externalized, and any other host-provided package is. *)
Theorem server_externals_allowlist (host_packages : gset js_string)
  (module_name : js_string) :
  Configuration.externals server
    = [Externals.nodeExternals (RegExp.chars js:"lyft")]
  /\ (RegExp.test (RegExp.chars js:"lyft") module_name = true ->
      externalized host_packages server module_name = false)
  /\ (module_name ∈ host_packages ->
      RegExp.test (RegExp.chars js:"lyft") module_name = false ->
      externalized host_packages server module_name = true).
Proof.
  split; [reflexivity|].
  unfold externalized. cbn [server serverConfig Configuration.externals existsb
                            externalizes].
  split.
  - intros ->. rewrite andb_false_r. reflexivity.
  - intros Hin ->. rewrite bool_decide_eq_true_2 by exact Hin. reflexivity.
Qed.

End Profiles.

Lemma client_vendor_cache_group_witness :
  is_separator 47 = true
  /\ exists vendor : CacheGroup.t,
       Configuration.optimization
         (clientConfig ∅ js:"/srv/flyteconsole" (@List.concat _) (@List.concat _))
       = Some {| Optimization.splitChunks :=
                   {| Optimization.cacheGroups := {[ js:"vendor" := vendor ]} |} |}
       /\ size ({[ js:"vendor" := vendor ]} : gmap js_string CacheGroup.t) = 1%nat
       /\ CacheGroup.name vendor = js:"vendor"
       /\ CacheGroup.chunks vendor = CacheGroup.initial
       /\ CacheGroup.enforce vendor = true
       /\ CacheGroup.priority vendor = 10%Z
       /\ (default_priority < CacheGroup.priority vendor)%Z
       /\ RegExp.test (CacheGroup.test vendor)
            (js:"/srv/flyteconsole" ++ 47 :: js:"node_modules" ++ 47
               :: js:"react/index.js") = true.
Proof.
  split; [reflexivity|].
  apply (client_vendor_cache_group ∅ js:"/srv/flyteconsole"
           (@List.concat _) (@List.concat _)
           js:"/srv/flyteconsole" js:"react/index.js" 47 47);
    reflexivity.
Defined.

Lemma server_externals_allowlist_witness :
  (RegExp.test (RegExp.chars js:"lyft") js:"@lyft/flyteidl" = true
   /\ externalized {[ js:"express"; js:"@lyft/flyteidl" ]}
        (serverConfig ∅ js:"/srv/flyteconsole" (@List.concat _))
        js:"@lyft/flyteidl" = false)
  /\ (js:"express" ∈ ({[ js:"express"; js:"@lyft/flyteidl" ]} : gset js_string)
      /\ RegExp.test (RegExp.chars js:"lyft") js:"express" = false
      /\ externalized {[ js:"express"; js:"@lyft/flyteidl" ]}
           (serverConfig ∅ js:"/srv/flyteconsole" (@List.concat _))
           js:"express" = true).
Proof.
  split.
  - split; [vm_compute; reflexivity|].
    apply (proj1 (proj2 (server_externals_allowlist ∅ js:"/srv/flyteconsole"
                           (@List.concat _) _ js:"@lyft/flyteidl"))).
    vm_compute. reflexivity.
  - split; [apply elem_of_union_l, elem_of_singleton; reflexivity|].
    split; [vm_compute; reflexivity|].
    apply (proj2 (proj2 (server_externals_allowlist ∅ js:"/srv/flyteconsole"
                           (@List.concat _) _ js:"express"))).
    + apply elem_of_union_l, elem_of_singleton. reflexivity.
    + vm_compute. reflexivity.
Defined.

(** * Further properties *)

(** ** The derivative matcher against the language of a pattern *)

Lemma nullable_lang (r : Regex.t) :
  Regex.nullable r = true <-> Regex.lang r [].
Proof.
  split.
  - induction r; simpl; intros H; try discriminate.
    + constructor.
    + apply andb_true_iff in H as [H1 H2].
      change (@nil JsString.code_unit) with (@nil JsString.code_unit ++ []).
      constructor; auto.
    + apply orb_true_iff in H as [H|H];
        [apply Regex.lang_Alt_l|apply Regex.lang_Alt_r]; auto.
    + constructor.
  - induction r; simpl; intros H; inversion H; subst; auto.
    + match goal with E : _ ++ _ = [] |- _ => apply app_eq_nil in E as [-> ->] end.
      rewrite IHr1, IHr2 by assumption. reflexivity.
    + rewrite IHr1 by assumption. reflexivity.
    + rewrite IHr2 by assumption. apply orb_true_r.
Qed.

(** A non-empty string of [r*] starts with a non-empty string of [r]. *)
Lemma lang_Star_cons_inv (r : Regex.t) (c : JsString.code_unit)
  (s : js_string) :
  Regex.lang (Regex.Star r) (c :: s) ->
  exists s1 s2, s = s1 ++ s2 /\ Regex.lang r (c :: s1)
                /\ Regex.lang (Regex.Star r) s2.
Proof.
  intros H. remember (Regex.Star r) as r' eqn:Er.
  remember (c :: s) as cs eqn:Es.
  induction H as [| | | | | | |r0 s1 s2 H1 _ H2 IH2]; try discriminate.
  injection Er as ->.
  destruct s1 as [|d s1].
  - apply IH2; [reflexivity|exact Es].
  - simpl in Es. injection Es as Hc Hs. subst d s. exists s1, s2. auto.
Qed.

Lemma deriv_lang (r : Regex.t) (c : JsString.code_unit) (s : js_string) :
  Regex.lang (Regex.deriv c r) s <-> Regex.lang r (c :: s).
Proof.
  revert s. induction r as [| |a| |r1 IH1 r2 IH2|r1 IH1 r2 IH2|r1 IH1];
    intros s; simpl.
  - split; intros H; inversion H.
  - split; intros H; inversion H.
  - destruct (RegExp.atom_matches a c) eqn:Ha; split; intros H;
      inversion H; subst.
    + constructor. exact Ha.
    + constructor.
    + congruence.
  - destruct (Regex.is_line_terminator c) eqn:Hc; split; intros H;
      inversion H; subst.
    + congruence.
    + constructor. exact Hc.
    + constructor.
  - assert (Hcat : forall t, Regex.lang (Regex.Cat (Regex.deriv c r1) r2) t ->
                             Regex.lang (Regex.Cat r1 r2) (c :: t)).
    { intros t H. inversion H; subst.
      change (c :: s1 ++ s2) with ((c :: s1) ++ s2).
      constructor; [apply IH1|]; assumption. }
    split.
    + destruct (Regex.nullable r1) eqn:Hn; intros H.
      * inversion H; subst; [apply Hcat; assumption|].
        change (c :: s) with ([] ++ c :: s).
        constructor; [apply nullable_lang, Hn|apply IH2; assumption].
      * apply Hcat, H.
    + intros H. inversion H as [| | |? ? s1 s2 H1 H2| | | |]; subst.
      destruct s1 as [|d s1]; simpl in *; subst.
      * apply nullable_lang in H1. rewrite H1.
        apply Regex.lang_Alt_r, IH2, H2.
      * match goal with E : _ :: _ = _ :: _ |- _ => injection E as -> <- end.
        assert (Hd : Regex.lang (Regex.Cat (Regex.deriv c r1) r2) (s1 ++ s2))
          by (constructor; [apply IH1|]; assumption).
        destruct (Regex.nullable r1); [apply Regex.lang_Alt_l|]; exact Hd.
  - split; intros H; inversion H; subst.
    + apply Regex.lang_Alt_l, IH1; assumption.
    + apply Regex.lang_Alt_r, IH2; assumption.
    + apply Regex.lang_Alt_l, IH1; assumption.
    + apply Regex.lang_Alt_r, IH2; assumption.
  - split; intros H.
    + inversion H; subst.
      change (c :: s1 ++ s2) with ((c :: s1) ++ s2).
      constructor; [apply IH1|]; assumption.
    + apply lang_Star_cons_inv in H as (s1 & s2 & -> & H1 & H2).
      constructor; [apply IH1|]; assumption.
Qed.

Lemma accepts_lang (r : Regex.t) (s : js_string) :
  Regex.accepts r s = true <-> Regex.lang r s.
Proof.
  revert r. induction s as [|c s IH]; intros r; simpl.
  - apply nullable_lang.
  - rewrite IH. apply deriv_lang.
Qed.

(** An end-anchored pattern succeeds when some tail of the input is a
    string of the pattern. *)
Lemma test_to_end_tail (r : Regex.t) (s : js_string) :
  Regex.test_to_end r s = true <->
  exists head tail, s = head ++ tail /\ Regex.lang r tail.
Proof.
  split.
  - induction s as [|c s IH]; simpl.
    + rewrite orb_false_r. intros H%nullable_lang. exists [], []. auto.
    + intros [H|H]%orb_true_iff.
      * exists [], (c :: s). split; [reflexivity|].
        apply (accepts_lang r (c :: s)), H.
      * destruct (IH H) as (head & tail & -> & Ht).
        exists (c :: head), tail. auto.
  - intros (head & tail & -> & Ht).
    induction head as [|c head IH]; simpl.
    + apply accepts_lang in Ht. destruct tail; simpl in *; rewrite Ht; reflexivity.
    + rewrite IH. apply orb_true_r.
Qed.

Lemma lang_word (w s : js_string) :
  Regex.lang (Regex.word w) s <-> s = w.
Proof.
  revert s. induction w as [|c w IH]; intros s; simpl.
  - split; [intros H; inversion H; reflexivity|intros ->; constructor].
  - split.
    + intros H. inversion H as [| | |? ? s1 s2 H1 H2| | | |]; subst.
      inversion H1; subst.
      match goal with E : RegExp.atom_matches _ _ = true |- _ =>
        simpl in E; apply N.eqb_eq in E; subst end.
      apply IH in H2 as ->. reflexivity.
    + intros ->. change (c :: w) with ([c] ++ w).
      constructor; [constructor; simpl; apply N.eqb_refl|apply IH; reflexivity].
Qed.

Lemma lang_Opt (r : Regex.t) (s : js_string) :
  Regex.lang (Regex.Opt r) s <-> Regex.lang r s \/ s = [].
Proof.
  unfold Regex.Opt. split.
  - intros H. inversion H; subst; [left; assumption|].
    match goal with E : Regex.lang Regex.Empty _ |- _ => inversion E end.
    right. reflexivity.
  - intros [H| ->]; [apply Regex.lang_Alt_l, H|apply Regex.lang_Alt_r; constructor].
Qed.

Lemma lang_one_of (r : Regex.t) (rs : list Regex.t) (s : js_string) :
  Regex.lang (Regex.one_of r rs) s <-> exists r', In r' (r :: rs) /\ Regex.lang r' s.
Proof.
  revert r. induction rs as [|r1 rs IH]; intros r; cbn [Regex.one_of].
  - split.
    + intros H. exists r. split; [left; reflexivity|exact H].
    + intros (r' & [<-|[]] & H). exact H.
  - split.
    + intros H. inversion H; subst.
      * exists r. split; [left; reflexivity|assumption].
      * match goal with E : Regex.lang (Regex.one_of _ _) _ |- _ =>
          apply IH in E as (r' & Hin & Hr') end.
        exists r'. split; [right; exact Hin|exact Hr'].
    + intros (r' & [<-|Hin] & H); [apply Regex.lang_Alt_l, H|].
      apply Regex.lang_Alt_r, IH. exists r'. auto.
Qed.

Lemma lang_Star_Dot (s : js_string) :
  Regex.lang (Regex.Star Regex.Dot) s <->
  forallb (fun c => negb (Regex.is_line_terminator c)) s = true.
Proof.
  split.
  - intros H. remember (Regex.Star Regex.Dot) as r eqn:Er.
    induction H as [| | | | | | |r0 s1 s2 H1 _ H2 IH2]; try discriminate.
    + reflexivity.
    + injection Er as ->. inversion H1; subst. simpl.
      match goal with E : Regex.is_line_terminator _ = false |- _ => rewrite E end.
      apply IH2. reflexivity.
  - induction s as [|c s IH]; simpl; [constructor|].
    intros [Hc Hs]%andb_true_iff. apply negb_true_iff in Hc.
    change (c :: s) with ([c] ++ s).
    constructor; [constructor; exact Hc|apply IH, Hs].
Qed.

Lemma lang_Cat_inv (r1 r2 : Regex.t) (s : js_string) :
  Regex.lang (Regex.Cat r1 r2) s <->
  exists s1 s2, s = s1 ++ s2 /\ Regex.lang r1 s1 /\ Regex.lang r2 s2.
Proof.
  split.
  - intros H. inversion H; subst. eauto.
  - intros (s1 & s2 & -> & H1 & H2). constructor; assumption.
Qed.

Lemma lang_Char (c : JsString.code_unit) (s : js_string) :
  Regex.lang (Regex.Unit (RegExp.Char c)) s <-> s = [c].
Proof.
  split.
  - intros H. inversion H as [|a d Hd| | | | | |]; subst.
    simpl in Hd. apply N.eqb_eq in Hd as ->. reflexivity.
  - intros ->. constructor. simpl. apply N.eqb_refl.
Qed.

(** ** The loader rules *)

Lemma test_to_end_word (w resource : js_string) :
  Regex.test_to_end (Regex.word w) resource = true <->
  exists base, resource = base ++ w.
Proof.
  rewrite test_to_end_tail. split.
  - intros (base & tail & -> & ->%lang_word). exists base. reflexivity.
  - intros [base ->]. exists base, w. split; [reflexivity|].
    apply lang_word. reflexivity.
Qed.

(** X1: the source-map rule applies to the names that end in [.js], and
    to no other. *)
Theorem sourceMapRule_test_suffix (resource : js_string) :
  Regex.test_to_end (Rule.test sourceMapRule) resource = true <->
  exists base, resource = base ++ js:".js".
Proof.
  rewrite test_to_end_tail. cbn [sourceMapRule Rule.test]. split.
  - intros (base & tail & -> & ->%lang_word). exists base. reflexivity.
  - intros [base ->]. exists base, (js:".js"). split; [reflexivity|].
    apply lang_word. reflexivity.
Qed.

Lemma lang_typescript (tail : js_string) :
  Regex.lang
    (Regex.Cat (Regex.word js:".ts") (Regex.Opt (Regex.Unit (RegExp.Char 120))))
    tail
  <-> tail = js:".ts" \/ tail = js:".tsx".
Proof.
  rewrite lang_Cat_inv. split.
  - intros (s1 & s2 & -> & ->%lang_word & [->%lang_Char| ->]%lang_Opt);
      [right|left]; reflexivity.
  - intros [-> | ->].
    + exists (js:".ts"), []. split; [reflexivity|]. split.
      * apply lang_word. reflexivity.
      * apply lang_Opt. right. reflexivity.
    + exists (js:".ts"), [120]. split; [reflexivity|]. split.
      * apply lang_word. reflexivity.
      * apply lang_Opt. left. apply lang_Char. reflexivity.
Qed.

Lemma test_to_end_typescript (resource : js_string) :
  Regex.test_to_end
    (Regex.Cat (Regex.word js:".ts") (Regex.Opt (Regex.Unit (RegExp.Char 120))))
    resource = true
  <-> exists base, resource = base ++ js:".ts" \/ resource = base ++ js:".tsx".
Proof.
  rewrite test_to_end_tail. split.
  - intros (base & tail & -> & [-> | ->]%lang_typescript);
      exists base; [left|right]; reflexivity.
  - intros [base [-> | ->]].
    + exists base, (js:".ts"). split; [reflexivity|].
      apply lang_typescript. left. reflexivity.
    + exists base, (js:".tsx"). split; [reflexivity|].
      apply lang_typescript. right. reflexivity.
Qed.

(** X2: the TypeScript rule applies to the names that end in [.ts] or
    [.tsx], and to no other. *)
Theorem typescriptRule_test_suffix (__dirname : js_string)
  (path_resolve : list js_string -> js_string) (resource : js_string) :
  Regex.test_to_end (Rule.test (typescriptRule __dirname path_resolve)) resource
    = true
  <-> exists base, resource = base ++ js:".ts" \/ resource = base ++ js:".tsx".
Proof.
  rewrite test_to_end_tail. cbn [typescriptRule Rule.test]. split.
  - intros (base & tail & -> & [-> | ->]%lang_typescript);
      exists base; [left|right]; reflexivity.
  - intros [base [-> | ->]].
    + exists base, (js:".ts"). split; [reflexivity|].
      apply lang_typescript. left. reflexivity.
    + exists base, (js:".tsx"). split; [reflexivity|].
      apply lang_typescript. right. reflexivity.
Qed.

(** X3: no name goes through both the source-map rule and the TypeScript
    rule. *)
Theorem sourceMapRule_typescriptRule_disjoint (__dirname : js_string)
  (path_resolve : list js_string -> js_string) (resource : js_string) :
  Regex.test_to_end (Rule.test sourceMapRule) resource
  && Regex.test_to_end (Rule.test (typescriptRule __dirname path_resolve))
       resource
  = false.
Proof.
  apply not_true_is_false. intros [Hjs Hts]%andb_true_iff.
  apply (test_to_end_word js:".js") in Hjs as [b1 ->].
  apply test_to_end_typescript in Hts as [b2 [H|H]].
  - change (js:".js") with ([46; 106] ++ [115]) in H.
    change (js:".ts") with ([46; 116] ++ [115]) in H.
    rewrite !app_assoc in H. apply app_inj_tail in H as [H _].
    change [46; 106] with ([46] ++ [106]) in H.
    change [46; 116] with ([46] ++ [116]) in H.
    rewrite !app_assoc in H. apply app_inj_tail in H as [_ H].
    discriminate.
  - change (js:".js") with ([46; 106] ++ [115]) in H.
    change (js:".tsx") with ([46; 116; 115] ++ [120]) in H.
    rewrite !app_assoc in H. apply app_inj_tail in H as [_ H].
    discriminate.
Qed.

Lemma lang_image_extension (s : js_string) :
  Regex.lang
    (Regex.one_of (Regex.word js:"ico")
       (List.map Regex.word (tl image_and_font_extensions))) s
  <-> In s image_and_font_extensions.
Proof.
  rewrite lang_one_of.
  change (Regex.word js:"ico" :: List.map Regex.word (tl image_and_font_extensions))
    with (List.map Regex.word image_and_font_extensions).
  split.
  - intros (r & Hin & Hr). apply in_map_iff in Hin as (w & <- & Hw).
    apply lang_word in Hr as ->. exact Hw.
  - intros Hin. exists (Regex.word s). split.
    + apply in_map, Hin.
    + apply lang_word. reflexivity.
Qed.

Lemma lang_query (s : js_string) :
  Regex.lang
    (Regex.Opt (Regex.Cat (Regex.Unit (RegExp.Char 63)) (Regex.Star Regex.Dot)))
    s
  <-> s = [] \/
      exists q, s = 63 :: q
                /\ forallb (fun c => negb (Regex.is_line_terminator c)) q = true.
Proof.
  rewrite lang_Opt, lang_Cat_inv. split.
  - intros [(s1 & s2 & -> & ->%lang_Char & Hq%lang_Star_Dot)| ->];
      [right|left; reflexivity].
    exists s2. auto.
  - intros [-> | (q & -> & Hq)]; [right; reflexivity|left].
    exists [63], q. split; [reflexivity|]. split.
    + apply lang_Char. reflexivity.
    + apply lang_Star_Dot, Hq.
Qed.

(** X4: the image-and-font rule applies to the names that end in a period and
    one of the twelve extensions, or in that followed by a question mark
    and a query that stays on one line; it applies to no other name. *)
Theorem imageAndFontsRule_test_extension (resource : js_string) :
  Regex.test_to_end (Rule.test imageAndFontsRule) resource = true <->
  exists base ext query,
    resource = base ++ 46 :: ext ++ query
    /\ In ext image_and_font_extensions
    /\ (query = [] \/
        exists q, query = 63 :: q
                  /\ forallb (fun c => negb (Regex.is_line_terminator c)) q
                     = true).
Proof.
  rewrite test_to_end_tail. cbn [imageAndFontsRule Rule.test]. split.
  - intros (base & tail & -> & H).
    apply lang_Cat_inv in H as (dot & rest & -> & ->%lang_Char & H).
    apply lang_Cat_inv in H as (ext & query & -> & Hext & Hq).
    apply lang_image_extension in Hext. apply lang_query in Hq.
    exists base, ext, query. auto.
  - intros (base & ext & query & -> & Hext & Hq).
    exists base, (46 :: ext ++ query). split; [reflexivity|].
    change (46 :: ext ++ query) with ([46] ++ ext ++ query).
    constructor; [apply lang_Char; reflexivity|].
    constructor; [apply lang_image_extension, Hext|apply lang_query, Hq].
Qed.

Example imageAndFontsRule_examples :
  Regex.test_to_end (Rule.test imageAndFontsRule) js:"src/assets/favicon.png"
    = true
  /\ Regex.test_to_end (Rule.test imageAndFontsRule) js:"font.woff2?v=4.7.0"
     = true
  /\ Regex.test_to_end (Rule.test imageAndFontsRule) js:"logo.pngx" = false
  /\ Regex.test_to_end (Rule.test imageAndFontsRule) js:"png" = false.
Proof. repeat split; vm_compute; reflexivity. Qed.

Example loader_rule_examples :
  Regex.test_to_end (Rule.test sourceMapRule) js:"vendor.js" = true
  /\ Regex.test_to_end (Rule.test sourceMapRule) js:"package.json" = false
  /\ Regex.test_to_end (Rule.test sourceMapRule) js:"App.jsx" = false
  /\ Regex.test_to_end (Rule.test (typescriptRule [] (@List.concat _)))
       js:"index.d.ts" = true
  /\ Regex.test_to_end (Rule.test (typescriptRule [] (@List.concat _)))
       js:"App.tsx" = true
  /\ Regex.test_to_end (Rule.test (typescriptRule [] (@List.concat _)))
       js:"App.ts.map" = false.
Proof. repeat split; vm_compute; reflexivity. Qed.

(** ** The vendor group against the TypeScript rule *)

Lemma test_matches_somewhere (p : RegExp.pattern) (s : js_string) :
  RegExp.test p s = true <->
  exists head tail, s = head ++ tail /\ RegExp.matches_prefix p tail = true.
Proof.
  split.
  - induction s as [|c s IH]; cbn [RegExp.test].
    + rewrite orb_false_r. intros H. exists [], []. auto.
    + intros [H|H]%orb_true_iff.
      * exists [], (c :: s). auto.
      * destruct (IH H) as (head & tail & -> & Ht).
        exists (c :: head), tail. auto.
  - intros (head & tail & -> & Ht). apply test_later, test_here, Ht.
Qed.

Lemma matches_prefix_cons_inv (a : RegExp.atom) (p : RegExp.pattern)
  (t : js_string) :
  RegExp.matches_prefix (a :: p) t = true ->
  exists c t', t = c :: t' /\ RegExp.atom_matches a c = true
               /\ RegExp.matches_prefix p t' = true.
Proof.
  destruct t as [|c t']; [discriminate|].
  intros [Ha Hp]%andb_true_iff. exists c, t'. auto.
Qed.

(** Dropping the first position of a pattern can only make it match more. *)
Lemma test_drop_first (a : RegExp.atom) (p : RegExp.pattern) (s : js_string) :
  RegExp.test (a :: p) s = true -> RegExp.test p s = true.
Proof.
  intros (head & tail & -> & Ht)%test_matches_somewhere.
  apply matches_prefix_cons_inv in Ht as (c & tail' & -> & _ & Ht).
  change (head ++ c :: tail') with (head ++ [c] ++ tail').
  rewrite app_assoc. apply test_later, test_here, Ht.
Qed.

Section Vendor.

Context (env : gmap js_string Value.t) (__dirname : js_string)
        (path_join path_resolve : list js_string -> js_string).

Lemma cacheGroups_vendor_client :
  cacheGroups_vendor (clientConfig env __dirname path_join path_resolve)
  = Some {| CacheGroup.chunks := CacheGroup.initial;
            CacheGroup.enforce := true;
            CacheGroup.name := js:"vendor";
            CacheGroup.priority := 10%Z;
            CacheGroup.test :=
              RegExp.Class false [RegExp.Single 92; RegExp.Single 47]
                :: RegExp.chars js:"node_modules" |}.
Proof.
  unfold cacheGroups_vendor, clientConfig.
  cbn [Configuration.optimization Optimization.splitChunks
       Optimization.cacheGroups].
  apply lookup_singleton_eq.
Qed.

(** X5: the test of the vendor group succeeds on the paths that hold
    [node_modules] right behind a slash or a backslash, and on no other:
    [node_modules] at the very start of a path does not count. *)
Theorem vendor_test_separator (vendor : CacheGroup.t) (resource : js_string)
  (Hvendor : cacheGroups_vendor
               (clientConfig env __dirname path_join path_resolve)
             = Some vendor) :
  RegExp.test (CacheGroup.test vendor) resource = true <->
  exists dir sep rest,
    is_separator sep = true
    /\ resource = dir ++ sep :: js:"node_modules" ++ rest.
Proof.
  rewrite cacheGroups_vendor_client in Hvendor.
  apply (inj Some) in Hvendor. subst vendor.
  cbn [CacheGroup.test]. split.
  - intros (dir & tail & -> & Ht)%test_matches_somewhere.
    apply matches_prefix_cons_inv in Ht as (sep & tail' & -> & Hsep & Ht).
    apply matches_prefix_chars_inv in Ht as [rest ->].
    exists dir, sep, rest. split; [|reflexivity].
    unfold is_separator. cbn in Hsep. rewrite orb_false_r in Hsep.
    rewrite orb_comm. exact Hsep.
  - intros (dir & sep & rest & Hsep & ->).
    apply node_modules_pattern_matches, Hsep.
Qed.

(** X6: a path that the vendor group takes is a path that the TypeScript
    rule excludes. *)
Theorem vendor_paths_excluded_from_typescript (vendor : CacheGroup.t)
  (exclude : RegExp.pattern) (resource : js_string)
  (Hvendor : cacheGroups_vendor
               (clientConfig env __dirname path_join path_resolve)
             = Some vendor)
  (Hexclude : Rule.exclude (typescriptRule __dirname path_resolve)
              = Some exclude)
  (Htest : RegExp.test (CacheGroup.test vendor) resource = true) :
  RegExp.test exclude resource = true.
Proof.
  rewrite cacheGroups_vendor_client in Hvendor.
  apply (inj Some) in Hvendor. subst vendor.
  injection Hexclude as <-.
  cbn [CacheGroup.test] in Htest. apply test_drop_first in Htest. exact Htest.
Qed.

End Vendor.

Lemma vendor_test_separator_witness :
  exists vendor : CacheGroup.t,
    cacheGroups_vendor
      (clientConfig ∅ js:"/srv/flyteconsole" (@List.concat _) (@List.concat _))
    = Some vendor
    /\ (RegExp.test (CacheGroup.test vendor) js:"node_modules/react/index.js"
          = true
        <-> exists dir sep rest,
              is_separator sep = true
              /\ js:"node_modules/react/index.js"
                 = dir ++ sep :: js:"node_modules" ++ rest).
Proof.
  eexists. split; [apply cacheGroups_vendor_client|].
  apply (vendor_test_separator ∅ js:"/srv/flyteconsole"
           (@List.concat _) (@List.concat _)).
  apply cacheGroups_vendor_client.
Defined.

Example vendor_test_relative_path :
  from_option
    (fun vendor =>
       (RegExp.test (CacheGroup.test vendor) js:"node_modules/react/index.js",
        RegExp.test (CacheGroup.test vendor) js:"C:\app\node_modules\react.js"))
    (true, false)
    (cacheGroups_vendor
       (clientConfig ∅ js:"/srv/flyteconsole" (@List.concat _) (@List.concat _)))
  = (false, true).
Proof. rewrite cacheGroups_vendor_client. vm_compute. reflexivity. Qed.

Lemma vendor_paths_excluded_from_typescript_witness :
  exists vendor : CacheGroup.t,
    cacheGroups_vendor
      (clientConfig ∅ js:"/srv/flyteconsole" (@List.concat _) (@List.concat _))
    = Some vendor
    /\ Rule.exclude (typescriptRule js:"/srv/flyteconsole" (@List.concat _))
       = Some (RegExp.chars js:"node_modules")
    /\ RegExp.test (CacheGroup.test vendor)
         js:"/srv/flyteconsole/node_modules/react/index.js" = true
    /\ RegExp.test (RegExp.chars js:"node_modules")
         js:"/srv/flyteconsole/node_modules/react/index.js" = true.
Proof.
  eexists. split; [apply cacheGroups_vendor_client|].
  split; [reflexivity|].
  split; [vm_compute; reflexivity|].
  eapply (vendor_paths_excluded_from_typescript ∅ js:"/srv/flyteconsole"
            (@List.concat _) (@List.concat _)).
  - apply cacheGroups_vendor_client.
  - reflexivity.
  - vm_compute. reflexivity.
Defined.

(** ** More on the version sanitizer *)

(** X7: sanitizing goes through concatenation. *)
Theorem absoluteVersion_app (s t : js_string) :
  absoluteVersion (s ++ t) = absoluteVersion s ++ absoluteVersion t.
Proof.
  rewrite !absoluteVersion_filter. apply List.filter_app.
Qed.

(** X8: the strings that come back unchanged are the strings made of digits,
    lowercase letters, periods and hyphens only. *)
Theorem absoluteVersion_unchanged (s : js_string) :
  absoluteVersion s = s <-> forallb version_char s = true.
Proof.
  rewrite absoluteVersion_filter, List.forallb_forall, <- List.Forall_forall.
  split.
  - intros H. rewrite <- H. apply filter_all.
  - apply filter_fixed.
Qed.

(** No character that shapes a URL survives. *)
Lemma version_char_not_delimiter (c : JsString.code_unit) :
  version_char c = true -> url_delimiter c = false.
Proof.
  unfold version_char, JsString.is_digit, JsString.is_lower, url_delimiter.
  cbn [existsb JsString.lit List.map list_ascii_of_string].
  rewrite !orb_true_iff, !andb_true_iff, !N.leb_le, !N.eqb_eq.
  intros H.
  repeat match goal with
         | |- context [N.eqb c ?k] =>
             destruct (N.eqb_spec c k) as [E|_];
             [exfalso; vm_compute in E; lia|]
         end.
  reflexivity.
Qed.

Lemma absoluteVersion_no_delimiter (s : js_string) :
  List.filter url_delimiter (absoluteVersion s) = [].
Proof.
  rewrite absoluteVersion_filter.
  induction s as [|c s IH]; [reflexivity|]. cbn [List.filter].
  destruct (version_char c) eqn:Hc; [|exact IH].
  cbn [List.filter]. rewrite (version_char_not_delimiter c Hc). exact IH.
Qed.

(** ** The CDN paths and the load of the module *)

Lemma absoluteVersion_at_Normal (o : gmap js_string js_string)
  (key v : js_string) :
  absoluteVersion_at o key = Normal v <->
  exists version, o !! key = Some version /\ v = absoluteVersion version.
Proof.
  unfold absoluteVersion_at. destruct (o !! key) as [version|]; split.
  - intros [= <-]. exists version. auto.
  - intros (? & [= <-] & ->). reflexivity.
  - discriminate.
  - intros (? & [=] & _).
Qed.

Lemma absoluteVersion_all_allowed (s : js_string) :
  forallb version_char (absoluteVersion s) = true.
Proof.
  rewrite absoluteVersion_filter. apply List.forallb_forall.
  apply List.Forall_forall, filter_all.
Qed.

Lemma cdn_path_delimiters (prefix suffix version : js_string) :
  List.filter url_delimiter (prefix ++ absoluteVersion version ++ suffix)
  = List.filter url_delimiter (prefix ++ suffix).
Proof.
  rewrite !List.filter_app, absoluteVersion_no_delimiter. reflexivity.
Qed.

(** X9: whatever version strings the manifest holds, a CDN path that is
    computed is the fixed text around a run of digits, lowercase letters,
    periods and hyphens, and its URL delimiters are those of the fixed
    text: the version adds no path segment, query, fragment or escape. *)
Theorem cdn_paths_keep_their_shape (packageJson : package_json)
  (url : js_string) :
  (cdnReact packageJson = Normal url ->
   (exists v, url = js:"https://unpkg.com/react@" ++ v
                    ++ js:"/umd/react.production.min.js"
              /\ forallb version_char v = true)
   /\ List.filter url_delimiter url
      = List.filter url_delimiter
          js:"https://unpkg.com/react@/umd/react.production.min.js")
  /\ (cdnReactDOM packageJson = Normal url ->
      (exists v, url = js:"https://unpkg.com/react-dom@" ++ v
                       ++ js:"/umd/react-dom.production.min.js"
                 /\ forallb version_char v = true)
      /\ List.filter url_delimiter url
         = List.filter url_delimiter
             js:"https://unpkg.com/react-dom@/umd/react-dom.production.min.js").
Proof.
  unfold cdnReact, cdnReactDOM. split.
  - destruct (absoluteVersion_at (devDependencies packageJson) js:"react")
      as [v|] eqn:Hv; cbn [completion_bind]; [|discriminate].
    apply absoluteVersion_at_Normal in Hv as (version & _ & ->).
    intros [= <-]. split.
    + eexists. split; [reflexivity|]. apply absoluteVersion_all_allowed.
    + apply (cdn_path_delimiters js:"https://unpkg.com/react@").
  - destruct (absoluteVersion_at (devDependencies packageJson) js:"react-dom")
      as [v|] eqn:Hv; cbn [completion_bind]; [|discriminate].
    apply absoluteVersion_at_Normal in Hv as (version & _ & ->).
    intros [= <-]. split.
    + eexists. split; [reflexivity|]. apply absoluteVersion_all_allowed.
    + apply (cdn_path_delimiters js:"https://unpkg.com/react-dom@").
Qed.

Example cdnReact_range :
  cdnReact {| dependencies := ∅;
              devDependencies := {[ js:"react" := js:"^16.13.1 || 17/../x" ]} |}
  = Normal js:"https://unpkg.com/react@16.13.117..x/umd/react.production.min.js".
Proof.
  unfold cdnReact, absoluteVersion_at. cbn [devDependencies].
  rewrite lookup_singleton_eq. vm_compute. reflexivity.
Qed.

Lemma cdn_paths_keep_their_shape_witness :
  cdnReact {| dependencies := ∅;
              devDependencies := {[ js:"react" := js:"^17.0.2" ]} |}
  = Normal js:"https://unpkg.com/react@17.0.2/umd/react.production.min.js"
  /\ List.filter url_delimiter
       js:"https://unpkg.com/react@17.0.2/umd/react.production.min.js"
     = List.filter url_delimiter
         js:"https://unpkg.com/react@/umd/react.production.min.js".
Proof.
  assert (H : cdnReact {| dependencies := ∅;
                          devDependencies := {[ js:"react" := js:"^17.0.2" ]} |}
              = Normal js:"https://unpkg.com/react@17.0.2/umd/react.production.min.js").
  { unfold cdnReact, absoluteVersion_at. cbn [devDependencies].
    rewrite lookup_singleton_eq. vm_compute. reflexivity. }
  split; [exact H|].
  apply (proj1 (cdn_paths_keep_their_shape _ _) H).
Defined.

Section Load.

Context (packageJson : package_json) (env : gmap js_string Value.t)
        (__dirname : js_string)
        (path_join path_resolve : list js_string -> js_string).

(** X10: the module exports its two configurations when the manifest lists
    both [react] and [react-dom] among the [devDependencies]; when either
    is missing there, the load ends in a [TypeError] and nothing is
    exported, wherever else the package may be listed. *)
Theorem default_export_needs_react :
  (is_Some (devDependencies packageJson !! js:"react") ->
   is_Some (devDependencies packageJson !! js:"react-dom") ->
   default_export packageJson env __dirname path_join path_resolve
   = Normal (clientConfig env __dirname path_join path_resolve,
             serverConfig env __dirname path_join))
  /\ (devDependencies packageJson !! js:"react" = None
      \/ devDependencies packageJson !! js:"react-dom" = None ->
      default_export packageJson env __dirname path_join path_resolve
      = Throw_TypeError).
Proof.
  unfold default_export, cdnReact, cdnReactDOM, absoluteVersion_at. split.
  - intros [v1 ->] [v2 ->]. reflexivity.
  - intros [-> | ->]; [reflexivity|].
    destruct (devDependencies packageJson !! js:"react"); reflexivity.
Qed.

End Load.

Lemma default_export_needs_react_witness :
  (is_Some (({[ js:"react" := js:"^17.0.2"; js:"react-dom" := js:"^17.0.2" ]}
               : gmap js_string js_string) !! js:"react")
   /\ default_export
        {| dependencies := ∅;
           devDependencies :=
             {[ js:"react" := js:"^17.0.2"; js:"react-dom" := js:"^17.0.2" ]} |}
        ∅ js:"/srv" (@List.concat _) (@List.concat _)
      = Normal (clientConfig ∅ js:"/srv" (@List.concat _) (@List.concat _),
                serverConfig ∅ js:"/srv" (@List.concat _)))
  /\ (({[ js:"react-dom" := js:"^17.0.2" ]} : gmap js_string js_string)
        !! js:"react" = None
      /\ default_export
           {| dependencies := {[ js:"react" := js:"^17.0.2" ]};
              devDependencies := {[ js:"react-dom" := js:"^17.0.2" ]} |}
           ∅ js:"/srv" (@List.concat _) (@List.concat _)
         = Throw_TypeError).
Proof.
  split.
  - split; [eexists; apply lookup_insert_eq|].
    apply (proj1 (default_export_needs_react
                    {| dependencies := ∅;
                       devDependencies :=
                         {[ js:"react" := js:"^17.0.2";
                            js:"react-dom" := js:"^17.0.2" ]} |}
                    ∅ js:"/srv" (@List.concat _) (@List.concat _))).
    + eexists. apply lookup_insert_eq.
    + eexists. cbn [devDependencies].
      rewrite lookup_insert_ne by (vm_compute; discriminate).
      apply lookup_singleton_eq.
  - assert (Hnone : ({[ js:"react-dom" := js:"^17.0.2" ]}
                       : gmap js_string js_string) !! js:"react" = None)
      by (apply lookup_singleton_ne; vm_compute; discriminate).
    split; [exact Hnone|].
    apply (proj2 (default_export_needs_react
                    {| dependencies := {[ js:"react" := js:"^17.0.2" ]};
                       devDependencies := {[ js:"react-dom" := js:"^17.0.2" ]} |}
                    ∅ js:"/srv" (@List.concat _) (@List.concat _))).
    left. exact Hnone.
Defined.

(** ** The public path *)

(** X11: the public path is the base URL of the environment followed by
    [/assets/]; no default stands in for a base URL that is missing or
    [undefined], and the path is then [undefined/assets/]. *)
Theorem publicPath_base_url (env : gmap js_string Value.t) :
  (forall base : js_string,
     env !! js:"BASE_URL" = Some (Value.Str base) ->
     publicPath env = base ++ js:"/assets/")
  /\ (env !! js:"BASE_URL" = None
      \/ env !! js:"BASE_URL" = Some Value.Undefined ->
      publicPath env = js:"undefined/assets/").
Proof.
  unfold publicPath, Value.get. split.
  - intros base ->. reflexivity.
  - intros [-> | ->]; reflexivity.
Qed.

Lemma publicPath_base_url_witness :
  (({[ js:"BASE_URL" := Value.Str js:"https://x.com" ]}
      : gmap js_string Value.t) !! js:"BASE_URL"
   = Some (Value.Str js:"https://x.com")
   /\ publicPath {[ js:"BASE_URL" := Value.Str js:"https://x.com" ]}
      = js:"https://x.com" ++ js:"/assets/")
  /\ ((∅ : gmap js_string Value.t) !! js:"BASE_URL" = None
      /\ publicPath ∅ = js:"undefined/assets/").
Proof.
  split.
  - split; [apply lookup_singleton_eq|].
    apply (proj1 (publicPath_base_url
                    {[ js:"BASE_URL" := Value.Str js:"https://x.com" ]})).
    apply lookup_singleton_eq.
  - split; [apply lookup_empty|].
    apply (proj2 (publicPath_base_url ∅)). left. apply lookup_empty.
Defined.

(** ** More on the environment projector *)






Section Define_in_profiles.

Context (env : gmap js_string Value.t) (__dirname : js_string)
        (path_join path_resolve : list js_string -> js_string).

(** X14: each profile holds one [DefinePlugin].  The client's carries the
    encoded environment and never the pass-through fragment; the server's
    carries the fragment; the [__isServer] flag of each tells the profile. *)
Theorem profiles_define_plugins :
  List.filter is_DefinePlugin
    (Configuration.plugins (clientConfig env __dirname path_join path_resolve))
  = [DefinePlugin {| Define.process_env := Define.Object (JSON.stringify <$> env);
                     Define.__isServer := false |}]
  /\ List.filter is_DefinePlugin
       (Configuration.plugins (serverConfig env __dirname path_join))
     = [DefinePlugin {| Define.process_env := Define.Code js:"process.env";
                        Define.__isServer := true |}].
Proof.
  split; [|reflexivity].
  unfold clientConfig. cbn [Configuration.plugins].
  unfold favIconPlugin, statsWriterPlugin. cbn [List.filter is_DefinePlugin].
  unfold getDefinePlugin. rewrite reduce_define_entry_fmap. reflexivity.
Qed.

End Define_in_profiles.

(** ** The literal that [JSON.stringify] writes *)

(** X19: a value without control characters, quotation marks, reverse
    solidi and surrogates stands in its literal as it is, between the two
    quotation marks. *)
Theorem stringify_copies_plain_strings (s : js_string)
  (Hplain : forallb plain_unit s = true) :
  JSON.stringify (Value.Str s)
  = Value.Str (JSON.quotation_mark :: s ++ [JSON.quotation_mark]).
Proof.
  rewrite stringify_string_quoted, (quote_body_plain s Hplain). reflexivity.
Qed.

Lemma stringify_copies_plain_strings_witness :
  forallb plain_unit js:"https://x.com" = true
  /\ JSON.stringify (Value.Str js:"https://x.com")
     = Value.Str (JSON.quotation_mark :: js:"https://x.com"
                    ++ [JSON.quotation_mark]).
Proof.
  split; [reflexivity|]. apply stringify_copies_plain_strings. reflexivity.
Defined.

Lemma hex_digit_plain (n : N) :
  JSON.hex_digit n <> 92 /\ JSON.hex_digit n <> 34 /\ 32 <= JSON.hex_digit n.
Proof.
  unfold JSON.hex_digit. destruct (N.ltb_spec n 10); lia.
Qed.

Lemma literal_body_plain_cons (c : JsString.code_unit) (t : js_string) :
  c <> 92 -> c <> 34 -> 32 <= c -> literal_body (c :: t) = literal_body t.
Proof.
  intros H92 H34 H32. cbn [literal_body].
  destruct (N.eqb_spec c 92); [contradiction|].
  destruct (N.eqb_spec c 34); [contradiction|].
  destruct (N.ltb_spec c 32); [lia|]. reflexivity.
Qed.

Lemma literal_body_unicode_escape (c : JsString.code_unit) (t : js_string) :
  literal_body (JSON.unicode_escape c ++ t) = literal_body t.
Proof.
  unfold JSON.unicode_escape. cbn [app].
  change (literal_body (JSON.reverse_solidus :: 117 :: ?x))
    with (literal_body x).
  repeat (rewrite literal_body_plain_cons by apply hex_digit_plain).
  reflexivity.
Qed.

Lemma surrogate_plain (c : JsString.code_unit) :
  JsString.is_leading_surrogate c || JsString.is_trailing_surrogate c = true ->
  c <> 92 /\ c <> 34 /\ 32 <= c.
Proof.
  unfold JsString.is_leading_surrogate, JsString.is_trailing_surrogate.
  rewrite orb_true_iff, !andb_true_iff, !N.leb_le. lia.
Qed.

Lemma short_escape_None (c : JsString.code_unit) :
  JSON.short_escape c = None -> c <> 92 /\ c <> 34.
Proof.
  unfold JSON.short_escape.
  repeat match goal with
         | |- context [N.eqb c ?k] =>
             destruct (N.eqb_spec c k) as [->|?]; [discriminate|]
         end.
  intros _. lia.
Qed.

Lemma literal_body_quote_unit (c : JsString.code_unit) (t : js_string) :
  literal_body (JSON.quote_unit c ++ t) = literal_body t.
Proof.
  unfold JSON.quote_unit. destruct (JSON.short_escape c) as [e|] eqn:He.
  - reflexivity.
  - destruct (_ || _ || _) eqn:Hc.
    + apply literal_body_unicode_escape.
    + apply short_escape_None in He as [H92 H34].
      rewrite !orb_false_iff in Hc. destruct Hc as [[H32 _] _].
      apply N.ltb_ge in H32.
      apply literal_body_plain_cons; assumption.
Qed.

Lemma quote_body_cons2 (c d : JsString.code_unit) (s : js_string) :
  JSON.quote_body (c :: d :: s) =
  if JsString.is_leading_surrogate c
  then if JsString.is_trailing_surrogate d
       then c :: d :: JSON.quote_body s
       else JSON.unicode_escape c ++ JSON.quote_body (d :: s)
  else JSON.quote_unit c ++ JSON.quote_body (d :: s).
Proof. reflexivity. Qed.

(** Induction over a string two code units at a time, as [quote_body]
    reads it. *)
Lemma js_string_pair_ind (P : js_string -> Prop) :
  P [] ->
  (forall c, P [c]) ->
  (forall c d s, P s -> P (d :: s) -> P (c :: d :: s)) ->
  forall s, P s.
Proof.
  intros Hnil Hone Htwo s.
  assert (H : P s /\ forall c, P (c :: s)); [|exact (proj1 H)].
  induction s as [|d s [IH1 IH2]]; split; auto.
Qed.

Lemma literal_body_quote_body (s : js_string) :
  literal_body (JSON.quote_body s) = true.
Proof.
  induction s as [|c|c d s IH1 IH2] using js_string_pair_ind.
  - reflexivity.
  - cbn [JSON.quote_body].
    destruct (JsString.is_leading_surrogate c).
    + rewrite <- (app_nil_r (JSON.unicode_escape c)).
      apply literal_body_unicode_escape.
    + apply literal_body_quote_unit.
  - rewrite quote_body_cons2.
    destruct (JsString.is_leading_surrogate c) eqn:Hc.
    + destruct (JsString.is_trailing_surrogate d) eqn:Hd.
      * destruct (surrogate_plain c) as (? & ? & ?);
          [rewrite Hc; reflexivity|].
        destruct (surrogate_plain d) as (? & ? & ?);
          [rewrite Hd; apply orb_true_r|].
        rewrite !literal_body_plain_cons by assumption. exact IH1.
      * rewrite literal_body_unicode_escape. exact IH2.
    + rewrite literal_body_quote_unit. exact IH2.
Qed.

(** X15: the text that [JSON.stringify] writes for a string is one string
    literal, for every string: a quotation mark, a body that a lexer reads
    to its end, and a quotation mark; a quotation mark or a control
    character of the value never stands bare in the body. *)
Theorem stringify_writes_one_literal (s : js_string) :
  exists body,
    JSON.stringify (Value.Str s)
    = Value.Str (JSON.quotation_mark :: body ++ [JSON.quotation_mark])
    /\ literal_body body = true.
Proof.
  exists (JSON.quote_body s). split; [reflexivity|].
  apply literal_body_quote_body.
Qed.

Lemma quote_unit_length (c : JsString.code_unit) :
  (1 <= length (JSON.quote_unit c) <= 6)%nat.
Proof.
  unfold JSON.quote_unit.
  destruct (JSON.short_escape c); [simpl; lia|].
  destruct (_ || _ || _); simpl; lia.
Qed.

(** X16: the literal is never shorter than the value with its two quotation
    marks, and never longer than six code units for each code unit of the
    value, with the two quotation marks. *)
Theorem quote_length_bounds (s : js_string) :
  (length s + 2 <= length (JSON.quote s) <= 6 * length s + 2)%nat.
Proof.
  unfold JSON.quote. cbn [length]. rewrite length_app. cbn [length].
  assert (H : (length s <= length (JSON.quote_body s) <= 6 * length s)%nat);
    [|lia].
  induction s as [|c|c d s IH1 IH2] using js_string_pair_ind.
  - simpl. lia.
  - cbn [JSON.quote_body].
    destruct (JsString.is_leading_surrogate c); [simpl; lia|].
    rewrite app_nil_r. pose proof (quote_unit_length c). simpl. lia.
  - rewrite quote_body_cons2.
    destruct (JsString.is_leading_surrogate c).
    + destruct (JsString.is_trailing_surrogate d).
      * cbn [length] in *. lia.
      * rewrite length_app.
        change (length (JSON.unicode_escape c)) with 6%nat.
        cbn [length] in *. lia.
    + rewrite length_app. pose proof (quote_unit_length c).
      cbn [length] in *. lia.
Qed.

(** ** Reading the literal back *)

Lemma unhex_hex_digit (n : N) :
  n < 16 -> unhex (JSON.hex_digit n) = Some n.
Proof.
  intros Hn. unfold JSON.hex_digit, unhex, JsString.is_digit.
  destruct (N.ltb_spec n 10).
  - replace ((48 <=? 48 + n) && (48 + n <=? 57)) with true
      by (symmetry; apply andb_true_iff; split; apply N.leb_le; lia).
    f_equal. lia.
  - replace ((48 <=? 87 + n) && (87 + n <=? 57)) with false
      by (symmetry; apply andb_false_iff; right; apply N.leb_gt; lia).
    replace ((97 <=? 87 + n) && (87 + n <=? 102)) with true
      by (symmetry; apply andb_true_iff; split; apply N.leb_le; lia).
    f_equal. lia.
Qed.

Lemma hex_digits_value (c : JsString.code_unit) :
  c < 65536 ->
  4096 * ((c / 4096) mod 16) + 256 * ((c / 256) mod 16)
    + 16 * ((c / 16) mod 16) + c mod 16 = c.
Proof.
  intros Hc.
  pose proof (N.div_mod c 16 ltac:(lia)) as H0.
  pose proof (N.div_mod (c / 16) 16 ltac:(lia)) as H1.
  pose proof (N.div_mod (c / 16 / 16) 16 ltac:(lia)) as H2.
  rewrite !N.Div0.div_div in H1, H2.
  change (16 * 16) with 256 in *. change (256 * 16) with 4096 in *.
  assert (H3 : c / 4096 < 16)
    by (apply N.Div0.div_lt_upper_bound; lia).
  rewrite (N.Div0.div_div c 256 16) in H2. change (256 * 16) with 4096 in H2.
  rewrite (N.mod_small (c / 4096) 16 H3). lia.
Qed.

Lemma unquote_body_unicode_escape (c : JsString.code_unit) (t : js_string) :
  c < 65536 ->
  unquote_body (JSON.unicode_escape c ++ t)
  = option_map (cons c) (unquote_body t).
Proof.
  intros Hc. unfold JSON.unicode_escape. cbn [app unquote_body].
  change (JSON.reverse_solidus =? 92) with true.
  change (117 =? 117) with true. cbv iota.
  rewrite !unhex_hex_digit by (apply N.mod_lt; lia).
  rewrite (hex_digits_value c Hc). reflexivity.
Qed.

Lemma short_unescape_escape (c e : JsString.code_unit) :
  JSON.short_escape c = Some e -> e <> 117 /\ short_unescape e = Some c.
Proof.
  unfold JSON.short_escape.
  repeat match goal with
         | |- context [N.eqb c ?k] =>
             destruct (N.eqb_spec c k) as [->|?];
             [intros [= <-]; split; [discriminate|reflexivity]|]
         end.
  discriminate.
Qed.

Lemma unquote_body_plain_cons (c : JsString.code_unit) (t : js_string) :
  c <> 92 -> c <> 34 -> 32 <= c ->
  unquote_body (c :: t) = option_map (cons c) (unquote_body t).
Proof.
  intros H92 H34 H32. cbn [unquote_body].
  destruct (N.eqb_spec c 92); [contradiction|].
  destruct (N.eqb_spec c 34); [contradiction|].
  destruct (N.ltb_spec c 32); [lia|]. reflexivity.
Qed.

Lemma escaped_unit_small (c : JsString.code_unit) :
  (c <? 32) || JsString.is_leading_surrogate c
    || JsString.is_trailing_surrogate c = true ->
  c < 65536.
Proof.
  unfold JsString.is_leading_surrogate, JsString.is_trailing_surrogate.
  rewrite !orb_true_iff, !andb_true_iff, !N.leb_le, N.ltb_lt. lia.
Qed.

Lemma unquote_body_quote_unit (c : JsString.code_unit) (t : js_string) :
  unquote_body (JSON.quote_unit c ++ t) = option_map (cons c) (unquote_body t).
Proof.
  unfold JSON.quote_unit. destruct (JSON.short_escape c) as [e|] eqn:He.
  - apply short_unescape_escape in He as [Hu He].
    cbn [app unquote_body]. change (JSON.reverse_solidus =? 92) with true.
    cbv iota. destruct (N.eqb_spec e 117); [contradiction|].
    rewrite He. reflexivity.
  - destruct (_ || _ || _) eqn:Hc.
    + apply unquote_body_unicode_escape, escaped_unit_small, Hc.
    + apply short_escape_None in He as [H92 H34].
      rewrite !orb_false_iff in Hc. destruct Hc as [[H32 _] _].
      apply N.ltb_ge in H32.
      apply unquote_body_plain_cons; assumption.
Qed.

Lemma unquote_body_quote_body (s : js_string) :
  unquote_body (JSON.quote_body s) = Some s.
Proof.
  induction s as [|c|c d s IH1 IH2] using js_string_pair_ind.
  - reflexivity.
  - cbn [JSON.quote_body].
    destruct (JsString.is_leading_surrogate c) eqn:Hc.
    + rewrite <- (app_nil_r (JSON.unicode_escape c)).
      rewrite unquote_body_unicode_escape; [reflexivity|].
      apply escaped_unit_small. rewrite Hc, orb_true_r. reflexivity.
    + rewrite unquote_body_quote_unit. reflexivity.
  - rewrite quote_body_cons2.
    destruct (JsString.is_leading_surrogate c) eqn:Hc.
    + destruct (JsString.is_trailing_surrogate d) eqn:Hd.
      * destruct (surrogate_plain c) as (? & ? & ?);
          [rewrite Hc; reflexivity|].
        destruct (surrogate_plain d) as (? & ? & ?);
          [rewrite Hd; apply orb_true_r|].
        rewrite !unquote_body_plain_cons by assumption.
        rewrite IH1. reflexivity.
      * rewrite unquote_body_unicode_escape, IH2; [reflexivity|].
        apply escaped_unit_small. rewrite Hc, orb_true_r. reflexivity.
    + rewrite unquote_body_quote_unit, IH2. reflexivity.
Qed.

(** X17: reading the literal back gives the value, for every string: no
    character is lost or altered by the encoding. *)
Theorem unquote_quote_body (s : js_string) :
  unquote_body (JSON.quote_body s) = Some s.
Proof. apply unquote_body_quote_body. Qed.

(** X18: two strings with the same literal are the same string: distinct
    environment values stay distinct in the browser-side object. *)
Theorem stringify_injective_on_strings (s1 s2 : js_string)
  (Hsame : JSON.stringify (Value.Str s1) = JSON.stringify (Value.Str s2)) :
  s1 = s2.
Proof.
  cbn [JSON.stringify] in Hsame. unfold JSON.quote in Hsame.
  injection Hsame as Hbody. apply app_inv_tail in Hbody.
  apply (f_equal unquote_body) in Hbody.
  rewrite !unquote_body_quote_body in Hbody. congruence.
Qed.

Lemma stringify_injective_on_strings_witness :
  JSON.stringify (Value.Str js:"production")
  = JSON.stringify (Value.Str js:"production")
  /\ js:"production" = js:"production".
Proof.
  split; [reflexivity|].
  apply stringify_injective_on_strings. reflexivity.
Defined.

(** ** The allow-list and the greatest subsequence *)

(** X20: the allow-list [/lyft/] of the server profile accepts a module
    name when [lyft] stands somewhere in it, at any place, and accepts no
    other name. *)
Theorem server_allowlist_is_substring_search (env : gmap js_string Value.t)
  (__dirname : js_string) (path_join : list js_string -> js_string)
  (module_name : js_string) :
  Forall (fun rule =>
            match rule with
            | Externals.nodeExternals allowlist =>
                RegExp.test allowlist module_name = true <->
                exists pre post, module_name = pre ++ js:"lyft" ++ post
            end)
         (Configuration.externals (serverConfig env __dirname path_join)).
Proof.
  unfold serverConfig. cbn [Configuration.externals].
  constructor; [|constructor]. apply test_chars_substring.
Qed.

(** X21: the sanitized string is the longest thing the sanitizer could
    keep: every subsequence of the input that is made of digits, lowercase
    letters, periods and hyphens is a subsequence of the result. *)
Theorem absoluteVersion_greatest_subsequence (t s : js_string)
  (Hsub : sublist t s) (Hallowed : forallb version_char t = true) :
  sublist t (absoluteVersion s).
Proof.
  rewrite absoluteVersion_filter. apply filter_greatest; [exact Hsub|].
  apply List.Forall_forall, List.forallb_forall, Hallowed.
Qed.

Lemma absoluteVersion_greatest_subsequence_witness :
  sublist js:"1.2" js:"^1.2.3"
  /\ forallb version_char js:"1.2" = true
  /\ sublist js:"1.2" (absoluteVersion js:"^1.2.3").
Proof.
  assert (Hsub : sublist js:"1.2" js:"^1.2.3").
  { change (sublist [49; 46; 50] [94; 49; 46; 50; 46; 51]).
    apply sublist_cons. repeat apply sublist_skip. apply sublist_nil_l. }
  split; [exact Hsub|]. split; [reflexivity|].
  apply absoluteVersion_greatest_subsequence; [exact Hsub|reflexivity].
Defined.
